(** * Plugin catalog generator and installer: model and properties

    A shallow embedding of [create_index.py] (icon extraction, descriptor
    parsing, size formatting, HTML and XML rendering) and of
    [install_plugins.py] (archive placement), followed by the properties
    established about them.

    Conventions of the model:
    - a Python [str] is a [string] whose characters are the code points
      below 256; the case and white-space tables below are Python's for
      that range;
    - a Python [dict] with string keys is a [gmap string _];
    - a function that can raise returns an [option] or a sum, and a
      [try]/[except] is the match on it;
    - what the standard library does (decoding, [configparser], archive
      extraction) is an interface, see [ConfigLib] and [ZipLib]. *)

From Stdlib Require Import ZArith NArith Ascii String List Bool Lia.
From Stdlib.Strings Require Import Byte.
From Stdlib Require Import DecimalString Sorted Permutation.
From stdpp Require Import base option list gmap strings.

#[local] Arguments String.append !_ _ / : simpl nomatch.

Local Open Scope string_scope.
Local Open Scope list_scope.
Local Open Scope Z_scope.

(** ** Python string operations *)

Module PyStr.

(** [c in "A".."Z"] or one of the Latin-1 capitals U+00C0..U+00DE
    (U+00D7, the multiplication sign, has no lower case). *)
Definition is_upper (c : ascii) : bool :=
  let n := N_of_ascii c in
  ((65 <=? n) && (n <=? 90) ||
   (192 <=? n) && (n <=? 222) && negb (n =? 215))%N.

Definition lower_char (c : ascii) : ascii :=
  if is_upper c then ascii_of_N (N_of_ascii c + 32) else c.

(** [str.lower()] *)
Fixpoint lower (s : string) : string :=
  match s with
  | EmptyString => EmptyString
  | String c s' => String (lower_char c) (lower s')
  end.

(** [str.isspace()] on one character: TAB..CR, FS..US, space, NEL, NBSP. *)
Definition isspace (c : ascii) : bool :=
  let n := N_of_ascii c in
  ((9 <=? n) && (n <=? 13) || (28 <=? n) && (n <=? 32) ||
   (n =? 133) || (n =? 160))%N.

Fixpoint lstrip (s : string) : string :=
  match s with
  | EmptyString => EmptyString
  | String c s' => if isspace c then lstrip s' else s
  end.

Fixpoint rstrip (s : string) : string :=
  match s with
  | EmptyString => EmptyString
  | String c s' =>
      match rstrip s' with
      | EmptyString => if isspace c then EmptyString else String c EmptyString
      | r => String c r
      end
  end.

(** [str.strip()] *)
Definition strip (s : string) : string := rstrip (lstrip s).

(** [str.split(sep)] for a separator of one character. *)
Fixpoint split (sep : ascii) (s : string) : list string :=
  match s with
  | EmptyString => [EmptyString]
  | String c s' =>
      if Ascii.eqb c sep then EmptyString :: split sep s'
      else match split sep s' with
           | piece :: rest => String c piece :: rest
           | [] => [String c EmptyString]
           end
  end.

(** [s.startswith(p)] *)
Definition startswith (s p : string) : bool := String.prefix p s.

(** [s.endswith(suffix)] *)
Definition endswith (s suffix : string) : bool :=
  let n := String.length s in
  let m := String.length suffix in
  (m <=? n)%nat && String.eqb (String.substring (n - m) m s) suffix.

(** [sub in s] *)
Fixpoint contains (sub s : string) : bool :=
  String.prefix sub s ||
  match s with
  | EmptyString => false
  | String _ s' => contains sub s'
  end.

Fixpoint drop (n : nat) (s : string) : string :=
  match n, s with
  | O, _ => s
  | S n', String _ s' => drop n' s'
  | S _, EmptyString => EmptyString
  end.

(** [s.replace(old, new)] for a non-empty [old]: occurrences are found
    left to right and do not overlap.  [skip] counts the characters of a
    matched occurrence that are still to be passed over. *)
Fixpoint replace_go (old new s : string) (skip : nat) : string :=
  match s with
  | EmptyString => EmptyString
  | String c s' =>
      match skip with
      | S k => replace_go old new s' k
      | O =>
          if String.prefix old s
          then new +:+ replace_go old new s' (String.length old - 1)
          else String c (replace_go old new s' O)
      end
  end.

Definition replace (old new s : string) : string := replace_go old new s O.

(** [str(n)] for a non-negative integer. *)
Definition of_Z (n : Z) : string :=
  NilZero.string_of_uint (N.to_uint (Z.to_N n)).

(** [f"{n:0wd}"]: decimal, padded with zeros on the left to [w] digits. *)
Fixpoint zeros (n : nat) : string :=
  match n with O => EmptyString | S n' => String "0" (zeros n') end.

Definition of_Z_pad (w : nat) (n : Z) : string :=
  let d := of_Z n in zeros (w - String.length d) +:+ d.

End PyStr.

(** ** [os.path] on a POSIX system *)

Module OsPath.

(** Position of the last occurrence of [c] in [s], counted from 0. *)
Fixpoint rfind_go (c : ascii) (s : string) (i : nat) (last : option nat)
  : option nat :=
  match s with
  | EmptyString => last
  | String d s' =>
      rfind_go c s' (S i) (if Ascii.eqb d c then Some i else last)
  end.

Definition rfind (c : ascii) (s : string) : option nat := rfind_go c s O None.

(** The loop of [genericpath._splitext] that skips leading dots:
    is some character of [s] at a position in [[from, upto)] not a dot? *)
Fixpoint has_non_dot (s : string) (from upto : nat) : bool :=
  match upto - from with
  | O => false
  | S _ =>
      match s with
      | EmptyString => false
      | String c s' =>
          match from with
          | O => negb (Ascii.eqb c ".") || has_non_dot s' O (upto - 1)
          | S f => has_non_dot s' f (upto - 1)
          end
      end
  end%nat.

(** [os.path.splitext(p)[1]] *)
Definition splitext_ext (p : string) : string :=
  let filename_index :=
    match rfind "/" p with Some i => S i | None => O end in
  match rfind "." p with
  | Some dot =>
      if (filename_index <=? dot)%nat && has_non_dot p filename_index dot
      then PyStr.drop dot p
      else EmptyString
  | None => EmptyString
  end.

(** [os.path.join(a, b)] *)
Definition join (a b : string) : string :=
  if PyStr.startswith b "/" then b
  else if String.eqb a "" || PyStr.endswith a "/" then a +:+ b
  else a +:+ "/" +:+ b.

End OsPath.

(** ** [get_file_size] *)

(** [f"{x:.1f}"] for the non-negative value [x = num / den]: the nearest
    multiple of one tenth, a tie going to the even last digit.  A file
    size is an integer below 2^53 and every division of the loop is by a
    power of two, so the float the code holds is exactly [num / den] and
    the printed digits are those of the exact quotient. *)
Definition round_tenths (num den : Z) : Z :=
  let q := (10 * num) / den in
  let r := (10 * num) mod den in
  if 2 * r <? den then q
  else if den <? 2 * r then q + 1
  else if Z.even q then q else q + 1.

Definition format_1f (num den : Z) : string :=
  let t := round_tenths num den in
  PyStr.of_Z (t / 10) +:+ "." +:+ PyStr.of_Z (t mod 10).

(** The [for unit in [...]] loop; [size] of the source is [num / den]. *)
Fixpoint get_file_size_loop (units : list string) (num den : Z) : string :=
  match units with
  | [] => format_1f num den +:+ " TB"
  | unit :: rest =>
      if num <? 1024 * den
      then format_1f num den +:+ " " +:+ unit
      else get_file_size_loop rest num (den * 1024)
  end.

(** [get_file_size(path)], given [os.path.getsize(path)]. *)
Definition get_file_size (size : Z) : string :=
  get_file_size_loop ["B"; "KB"; "MB"; "GB"] size 1.

Definition size_units : list string := ["B"; "KB"; "MB"; "GB"; "TB"].

(** ** Archives ([zipfile.ZipFile] opened for reading) *)

#[global] Instance byte_eq_decision : EqDecision byte := Byte.byte_eq_dec.

(** What [zf.open(name)] followed by [read()] does for one member:
    deliver its bytes, raise when the member is opened (encrypted,
    unsupported compression, bad local header), or raise while it is read
    (bad CRC, truncated data). *)
Inductive zip_data :=
  | Data (bytes : list byte)
  | OpenRaises
  | ReadRaises.

(** A [ZipInfo]: the member's name, its (year, month, day, hour, minute,
    second) and its data. *)
Record ZipInfo := {
  zi_filename : string;
  zi_date_time : Z * Z * Z * Z * Z * Z;
  zi_data : zip_data
}.

(** The archive is its [filelist], in central-directory order. *)
Definition ZipFile := list ZipInfo.

Definition namelist (zf : ZipFile) : list string := map zi_filename zf.

(** [zf.getinfo(name)]: [NameToInfo] is filled in [filelist] order, so of
    several members with one name the last is kept; [None] is KeyError. *)
Fixpoint getinfo (zf : ZipFile) (name : string) : option ZipInfo :=
  match zf with
  | [] => None
  | info :: rest =>
      match getinfo rest name with
      | Some later => Some later
      | None => if String.eqb (zi_filename info) name then Some info else None
      end
  end.

(** ** [extract_plugin_icon] *)

Definition ICONS_DIR : string := "icons".
Definition PLUGINS_DIR : string := "plugins".

(** The files of the working directory that the run writes, by path. *)
Abbreviation files := (gmap string (list byte)).

(** The copy that every branch performs,
    [with zf.open(name) as icon_file: with open(output_path, "wb") as
    out_file: out_file.write(icon_file.read())], followed by the
    [return]: the result is the returned path, or [None] when the copy
    raised and the [except] clause was taken.  The output file is created
    before the member is read, so a failing read leaves it empty. *)
Definition copy_icon (zf : ZipFile) (name icon_filename : string) (fs : files)
  : option string * files :=
  let output_path := OsPath.join ICONS_DIR icon_filename in
  match zi_data <$> getinfo zf name with
  | Some (Data bytes) =>
      (Some (ICONS_DIR +:+ "/" +:+ icon_filename), <[output_path := bytes]> fs)
  | Some ReadRaises => (None, <[output_path := []]> fs)
  | Some OpenRaises | None => (None, fs)
  end.

(** Priority 1: the candidates made from the descriptor's icon path. *)
Fixpoint try_metadata_candidates (zf : ZipFile) (plugin_name : string)
    (candidates : list string) (fs : files) : option (option string * files) :=
  match candidates with
  | [] => None
  | icon_path :: rest =>
      if bool_decide (icon_path ∈ namelist zf) then
        let extension :=
          match OsPath.splitext_ext icon_path with
          | EmptyString => ".png"
          | e => e
          end in
        Some (copy_icon zf icon_path (plugin_name +:+ extension) fs)
      else try_metadata_candidates zf plugin_name rest fs
  end.

(** Priority 2: the conventional locations, each with its extension. *)
Definition icon_candidates (plugin_name : string) : list (string * string) :=
  [ (plugin_name +:+ "/icons/icon.png", ".png");
    (plugin_name +:+ "/icon.png", ".png");
    (plugin_name +:+ "/icons/" +:+ plugin_name +:+ ".png", ".png");
    (plugin_name +:+ "/icons/icon.svg", ".svg");
    (plugin_name +:+ "/icon.svg", ".svg");
    (plugin_name +:+ "/icons/" +:+ plugin_name +:+ ".svg", ".svg") ].

Fixpoint try_icon_candidates (zf : ZipFile) (plugin_name : string)
    (candidates : list (string * string)) (fs : files)
  : option (option string * files) :=
  match candidates with
  | [] => None
  | (icon_path, extension) :: rest =>
      if bool_decide (icon_path ∈ namelist zf)
      then Some (copy_icon zf icon_path (plugin_name +:+ extension) fs)
      else try_icon_candidates zf plugin_name rest fs
  end.

(** [any(skip in name.lower() for skip in ["about", "settings", "logo"])] *)
Definition is_skipped (name : string) : bool :=
  existsb (fun skip => PyStr.contains skip (PyStr.lower name))
          ["about"; "settings"; "logo"].

(** The last loop, [for name in zf.namelist()], with its [if]/[elif]
    chain; [names] is what is left of the name list. *)
Fixpoint scan_names (zf : ZipFile) (plugin_name : string) (names : list string)
    (fs : files) : option string * files :=
  match names with
  | [] => (None, fs)
  | name :: rest =>
      if PyStr.endswith name "icon.png" || PyStr.endswith name "/icon.png" then
        copy_icon zf name (plugin_name +:+ ".png") fs
      else if PyStr.endswith name "icon.svg" || PyStr.endswith name "/icon.svg" then
        copy_icon zf name (plugin_name +:+ ".svg") fs
      else if PyStr.contains "/icons/" name &&
              (PyStr.endswith name ".svg" || PyStr.endswith name ".png") then
        if is_skipped name then scan_names zf plugin_name rest fs
        else
          let extension := if PyStr.endswith name ".svg" then ".svg" else ".png" in
          copy_icon zf name (plugin_name +:+ extension) fs
      else scan_names zf plugin_name rest fs
  end.

(** [metadata_icon_candidates]: the declared path relative to the plugin
    directory, then as it stands. *)
Definition metadata_icon_candidates (plugin_name path : string) : list string :=
  [plugin_name +:+ "/" +:+ path; path].

(** [if metadata_icon_path:] holds for a path that is given and not empty. *)
Definition truthy (s : option string) : bool :=
  match s with
  | Some EmptyString | None => false
  | Some _ => true
  end.

(** [extract_plugin_icon(zip_path, plugin_name, metadata_icon_path)].
    [zip] is what [ZipFile(zip_path, "r")] gives, [None] when it raises.
    The [icons] directory is taken to exist after [os.makedirs] and to be
    writable, so that only the archive can make the copy raise. *)
Definition extract_plugin_icon (zip : option ZipFile) (plugin_name : string)
    (metadata_icon_path : option string) (fs : files)
  : option string * files :=
  match zip with
  | None => (None, fs)
  | Some zf =>
      let from_metadata :=
        match metadata_icon_path with
        | Some path =>
            if truthy metadata_icon_path
            then try_metadata_candidates zf plugin_name
                   (metadata_icon_candidates plugin_name path) fs
            else None
        | None => None
        end in
      match from_metadata with
      | Some result => result
      | None =>
          match try_icon_candidates zf plugin_name
                  (icon_candidates plugin_name) fs with
          | Some result => result
          | None => scan_names zf plugin_name (namelist zf) fs
          end
      end
  end.

(** ** [parse_metadata] *)

(** [datetime.datetime] *)
Record datetime := {
  year : Z; month : Z; day : Z; hour : Z; minute : Z; second : Z
}.

Definition is_leap (y : Z) : bool :=
  (y mod 4 =? 0) && (negb (y mod 100 =? 0) || (y mod 400 =? 0)).

Definition days_in_month (y m : Z) : Z :=
  if m =? 2 then (if is_leap y then 29 else 28)
  else if (m =? 4) || (m =? 6) || (m =? 9) || (m =? 11) then 30
  else 31.

(** [datetime] applied to the six fields of [info.date_time]; [None] is
    the ValueError of a field out
    of range (an archive can store month 0 or second 60). *)
Definition datetime_of (t : Z * Z * Z * Z * Z * Z) : option datetime :=
  let '(y, mo, d, h, mi, sec) := t in
  if (1 <=? y) && (y <=? 9999) && (1 <=? mo) && (mo <=? 12) &&
     (1 <=? d) && (d <=? days_in_month y mo) &&
     (0 <=? h) && (h <=? 23) && (0 <=? mi) && (mi <=? 59) &&
     (0 <=? sec) && (sec <=? 59)
  then Some {| year := y; month := mo; day := d;
               hour := h; minute := mi; second := sec |}
  else None.

(** [d.strftime("%Y-%m-%d")] *)
Definition strftime_ymd (d : datetime) : string :=
  PyStr.of_Z_pad 4 (year d) +:+ "-" +:+ PyStr.of_Z_pad 2 (month d) +:+ "-" +:+
  PyStr.of_Z_pad 2 (day d).

(** The values a plugin record holds: descriptor fields and the derived
    fields are strings, [_metadata_date] is a [datetime], and [icon_path]
    is [None] when no icon was found. *)
Inductive value :=
  | VStr (s : string)
  | VDate (d : datetime)
  | VNone.

#[global] Instance datetime_eq_decision : EqDecision datetime.
Proof. solve_decision. Defined.

#[global] Instance value_eq_decision : EqDecision value.
Proof. solve_decision. Defined.

(** A plugin record, the [dict] that [parse_metadata] returns and the
    passes extend. *)
Abbreviation record := (gmap string value).

(** What [dict(config["general"])] gives for a section: its options
    with their values, or an interpolation error. *)
Inductive section_items :=
  | Items (options : gmap string string)
  | ItemsRaise.

(** A [configparser.ConfigParser] after [read_string], by section name. *)
Abbreviation ConfigParser := (gmap string section_items).

(** The two library calls of [parse_metadata]; [None] is a raised
    exception (UnicodeDecodeError, configparser.Error). *)
Class ConfigLib := {
  decode_utf8 : list byte -> option string;
  read_string : string -> option ConfigParser
}.

(** The body of the [if name.endswith("metadata.txt"):] branch.  The
    outer [None] is an exception; [Some ∅] is a descriptor without a
    [general] section. *)
Definition read_descriptor `{ConfigLib} (zf : ZipFile) (name : string)
  : option record :=
  info ← getinfo zf name;
  metadata_date ← datetime_of (zi_date_time info);
  bytes ← match zi_data info with Data bytes => Some bytes | _ => None end;
  content ← decode_utf8 bytes;
  config ← read_string content;
  match config !! "general" with
  | Some (Items options) =>
      Some (<["_metadata_date" := VDate metadata_date]> (VStr <$> options))
  | Some ItemsRaise => None
  | None => Some ∅
  end.

(** [parse_metadata(zip_path)]: the loop stops at the first name ending
    in [metadata.txt]; every exception leaves [metadata = {}]. *)
Definition parse_metadata `{ConfigLib} (zip : option ZipFile) : record :=
  match zip with
  | None => ∅
  | Some zf =>
      match List.find (fun name => PyStr.endswith name "metadata.txt")
                      (namelist zf) with
      | Some name => default ∅ (read_descriptor zf name)
      | None => ∅
      end
  end.

(** ** The catalog passes *)

(** An entry of the [plugins] directory: its name, [os.path.getsize],
    [os.path.getmtime] as a local date, and what opening it as an archive
    gives. *)
Record plugin_file := {
  pf_filename : string;
  pf_size : Z;
  pf_mtime : datetime;
  pf_zip : option ZipFile
}.

(** [list.sort(key=...)] and [sorted]: a stable sort on string keys, the
    keys compared by code point.  A stable sort has one result, so the
    insertion sort below stands for Python's. *)
Fixpoint insert_by_key {A} (key : A -> string) (x : A) (l : list A) : list A :=
  match l with
  | [] => [x]
  | y :: l' =>
      if String.leb (key x) (key y) then x :: l
      else y :: insert_by_key key x l'
  end.

Fixpoint sort_by_key {A} (key : A -> string) (l : list A) : list A :=
  match l with
  | [] => []
  | x :: l' => insert_by_key key x (sort_by_key key l')
  end.

(** [sorted(os.listdir(plugins_path))], by file name. *)
Definition sorted_listing (dir : list plugin_file) : list plugin_file :=
  sort_by_key pf_filename dir.

(** [str(d)] for a [datetime] without microseconds. *)
Definition str_datetime (d : datetime) : string :=
  strftime_ymd d +:+ " " +:+ PyStr.of_Z_pad 2 (hour d) +:+ ":" +:+
  PyStr.of_Z_pad 2 (minute d) +:+ ":" +:+ PyStr.of_Z_pad 2 (second d).

(** A value as an f-string prints it. *)
Definition str_value (v : value) : string :=
  match v with
  | VStr s => s
  | VDate d => str_datetime d
  | VNone => "None"
  end.

(** [p.get(key, default)] read as text.  The keys read this way are
    descriptor keys, which hold strings in every record. *)
Definition get_str (p : record) (key default : string) : string :=
  match p !! key with
  | Some v => str_value v
  | None => default
  end.

(** [metadata.get("icon", None)] *)
Definition get_opt_str (p : record) (key : string) : option string :=
  match p !! key with
  | Some (VStr s) => Some s
  | _ => None
  end.

Definition value_of_opt (o : option string) : value :=
  match o with Some s => VStr s | None => VNone end.

(** The [key] of both [sort] calls: [p.get("name", "").lower()]. *)
Definition name_key (p : record) : string := PyStr.lower (get_str p "name" "").

(** The body of the loop of [generate_index_html] for one directory
    entry.  [None] is an exception, which the pass does not catch. *)
Definition html_step `{ConfigLib} (f : plugin_file)
    (st : list record * files) : option (list record * files) :=
  let '(plugins, fs) := st in
  let filename := pf_filename f in
  if PyStr.endswith filename ".zip" then
    let metadata := parse_metadata (pf_zip f) in
    if bool_decide (metadata ≠ ∅) then
      let plugin_name := PyStr.replace ".zip" "" filename in
      let metadata_icon := get_opt_str metadata "icon" in
      let '(icon_path, fs) :=
        extract_plugin_icon (pf_zip f) plugin_name metadata_icon fs in
      let metadata := <["icon_path" := value_of_opt icon_path]> metadata in
      let metadata :=
        <["filename" := VStr (PLUGINS_DIR +:+ "/" +:+ filename)]> metadata in
      let metadata := <["filesize" := VStr (get_file_size (pf_size f))]> metadata in
      modified ←
        match metadata !! "_metadata_date" with
        | Some (VDate d) => Some (strftime_ymd d)
        | Some _ => None
        | None => Some (strftime_ymd (pf_mtime f))
        end;
      Some (plugins ++ [<["modified" := VStr modified]> metadata], fs)
    else Some (plugins, fs)
  else Some (plugins, fs).

Fixpoint html_loop `{ConfigLib} (entries : list plugin_file)
    (st : list record * files) : option (list record * files) :=
  match entries with
  | [] => Some st
  | f :: rest => st' ← html_step f st; html_loop rest st'
  end.

(** The sorted [plugins] list of [generate_index_html]; [dir] is [None]
    when [plugins] is not a directory. *)
Definition html_plugins `{ConfigLib} (dir : option (list plugin_file))
    (fs : files) : option (list record * files) :=
  '(plugins, fs) ← match dir with
                   | Some entries => html_loop (sorted_listing entries) ([], fs)
                   | None => Some ([], fs)
                   end;
  Some (sort_by_key name_key plugins, fs).

(** The body of the loop of [generate_plugins_xml]. *)
Definition xml_step `{ConfigLib} (f : plugin_file) (plugins_data : list record)
  : list record :=
  let filename := pf_filename f in
  if PyStr.endswith filename ".zip" then
    let metadata := parse_metadata (pf_zip f) in
    if bool_decide (metadata ≠ ∅) then
      let metadata := <["zip_filename" := VStr filename]> metadata in
      let metadata :=
        <["zip_path" := VStr (PLUGINS_DIR +:+ "/" +:+ filename)]> metadata in
      plugins_data ++ [metadata]
    else plugins_data
  else plugins_data.

(** The sorted [plugins_data] list of [generate_plugins_xml]. *)
Definition xml_plugins `{ConfigLib} (dir : option (list plugin_file))
  : list record :=
  sort_by_key name_key
    (match dir with
     | Some entries => foldl (fun acc f => xml_step f acc) [] (sorted_listing entries)
     | None => []
     end).

(** ** Rendering *)

(** The double quote and the line feed, and a string given by the bytes
    of its UTF-8 encoding (for the pictographs of the card). *)
Definition dq : string := String "034"%char EmptyString.
Definition nl : string := String "010"%char EmptyString.

Definition utf8 (codes : list N) : string :=
  string_of_list_ascii (map ascii_of_N codes).

Definition join_all (pieces : list string) : string :=
  fold_right String.append EmptyString pieces.

(** The truth value of a string. *)
Definition nonempty (s : string) : bool :=
  match s with EmptyString => false | _ => true end.

(** One tag badge. *)
Definition tag_badge (tag : string) : string :=
  "<span class=" +:+ dq +:+ "tag" +:+ dq +:+ ">" +:+ tag +:+ "</span>".

(** The loop [for tag in tags.split(",")[:5]] over the pieces left. *)
Fixpoint tag_badges_loop (pieces : list string) (tag_badges : string) : string :=
  match pieces with
  | [] => tag_badges
  | tag :: rest =>
      let tag := PyStr.strip tag in
      tag_badges_loop rest
        (if nonempty tag then tag_badges +:+ tag_badge tag else tag_badges)
  end.

(** The [tag_badges] of a card. *)
Definition tag_badges (tags : string) : string :=
  if nonempty tags
  then tag_badges_loop (take 5 (PyStr.split "," tags)) ""
  else "".

(** [p[key]], printed; [None] is KeyError. *)
Definition item_str (p : record) (key : string) : option string :=
  str_value <$> p !! key.

(** The truth value of [p.get("icon_path")]. *)
Definition has_icon (p : record) : bool :=
  match p !! "icon_path" with
  | Some (VStr s) => nonempty s
  | Some (VDate _) => true
  | Some VNone | None => false
  end.

(** The text of one card, piece by piece, given the items read with
    [p[...]] and the icon markup. *)
Definition html_card_pieces (p : record)
    (filename icon_html filesize modified : string) : list string :=
  let name := get_str p "name" filename in
  let version := get_str p "version" "Unknown" in
  let description := get_str p "description" "No description available." in
  let author := get_str p "author" "Unknown" in
  let homepage := get_str p "homepage" "#" in
  let tracker := get_str p "tracker" "#" in
  let repository := get_str p "repository" "#" in
  let qgis_min := get_str p "qgisminimumversion" "3.0" in
  let experimental :=
    String.eqb (PyStr.lower (get_str p "experimental" "False")) "true" in
  let tags := get_str p "tags" "" in
  let category := get_str p "category" "Plugins" in
  let experimental_badge :=
    if experimental
    then "<span class=" +:+ dq +:+ "badge experimental" +:+ dq +:+
         ">Experimental</span>"
    else "" in
  let secondary_link (url pictograph label : string) :=
    "                <a href=" +:+ dq +:+ url +:+ dq +:+ " class=" +:+ dq +:+
    "btn btn-secondary" +:+ dq +:+ " target=" +:+ dq +:+ "_blank" +:+ dq +:+
    ">" +:+ pictograph +:+ " " +:+ label +:+ "</a>" +:+ nl in
  [ nl;
    "        <div class=" +:+ dq +:+ "plugin-card" +:+ dq +:+ ">" +:+ nl;
    "            <div class=" +:+ dq +:+ "plugin-header" +:+ dq +:+ ">" +:+ nl;
    "                <div class=" +:+ dq +:+ "plugin-title-row" +:+ dq +:+ ">" +:+ nl;
    "                    " +:+ icon_html +:+ nl;
    "                    <h2>" +:+ name +:+ "</h2>" +:+ nl;
    "                </div>" +:+ nl;
    "                <div class=" +:+ dq +:+ "badges" +:+ dq +:+ ">" +:+ nl;
    "                    <span class=" +:+ dq +:+ "badge version" +:+ dq +:+ ">v" +:+
      version +:+ "</span>" +:+ nl;
    "                    <span class=" +:+ dq +:+ "badge category" +:+ dq +:+ ">" +:+
      category +:+ "</span>" +:+ nl;
    "                    " +:+ experimental_badge +:+ nl;
    "                </div>" +:+ nl;
    "            </div>" +:+ nl;
    "            <p class=" +:+ dq +:+ "description" +:+ dq +:+ ">" +:+
      description +:+ "</p>" +:+ nl;
    "            <div class=" +:+ dq +:+ "tags" +:+ dq +:+ ">" +:+
      tag_badges tags +:+ "</div>" +:+ nl;
    "            <div class=" +:+ dq +:+ "meta" +:+ dq +:+ ">" +:+ nl;
    "                <span>" +:+ utf8 [240; 159; 145; 164]%N +:+ " " +:+ author +:+
      "</span>" +:+ nl;
    "                <span>" +:+ utf8 [240; 159; 147; 166]%N +:+ " " +:+ filesize +:+
      "</span>" +:+ nl;
    "                <span>" +:+ utf8 [240; 159; 148; 167]%N +:+ " QGIS " +:+
      qgis_min +:+ "+</span>" +:+ nl;
    "                <span>" +:+ utf8 [240; 159; 147; 133]%N +:+ " " +:+ modified +:+
      "</span>" +:+ nl;
    "            </div>" +:+ nl;
    "            <div class=" +:+ dq +:+ "actions" +:+ dq +:+ ">" +:+ nl;
    "                <a href=" +:+ dq +:+ filename +:+ dq +:+ " class=" +:+ dq +:+
      "btn btn-primary" +:+ dq +:+ ">" +:+ utf8 [226; 172; 135; 239; 184; 143]%N +:+
      " Download</a>" +:+ nl;
    secondary_link homepage (utf8 [240; 159; 143; 160]%N) "Homepage";
    secondary_link repository (utf8 [240; 159; 147; 130]%N) "Repository";
    secondary_link tracker (utf8 [240; 159; 144; 155]%N) "Issues";
    "            </div>" +:+ nl;
    "        </div>" +:+ nl;
    "        " ].

(** [icon_html]: the image element when the record has an icon. *)
Definition icon_html (p : record) (name : string) : option string :=
  if has_icon p
  then icon_path ← item_str p "icon_path";
       Some ("<img src=" +:+ dq +:+ icon_path +:+ dq +:+ " alt=" +:+ dq +:+
             name +:+ " icon" +:+ dq +:+ " class=" +:+ dq +:+
             "plugin-icon" +:+ dq +:+ ">")
  else Some "".

(** The fragment appended to [plugin_cards] for one record; [None] is the
    KeyError of a missing item. *)
Definition html_card (p : record) : option string :=
  filename ← item_str p "filename";
  icon ← icon_html p (get_str p "name" filename);
  filesize ← item_str p "filesize";
  modified ← item_str p "modified";
  Some (join_all (html_card_pieces p filename icon filesize modified)).


(** The [about] text of an XML element. *)
Definition xml_about (p : record) : string :=
  let description := get_str p "description" "No description available." in
  PyStr.replace ">" "&gt;"
    (PyStr.replace "<" "&lt;"
       (PyStr.replace "&" "&amp;" (get_str p "about" description))).

Definition xml_element (tag text : string) : string :=
  "        <" +:+ tag +:+ ">" +:+ text +:+ "</" +:+ tag +:+ ">" +:+ nl.

(** The text of one element, piece by piece, given the two items read
    with [p[...]]. *)
Definition xml_block_pieces (p : record) (zip_filename zip_path : string)
  : list string :=
  let name := get_str p "name" "Unknown" in
  let version := get_str p "version" "0.0.1" in
  let description := get_str p "description" "No description available." in
  let about := xml_about p in
  let qgis_min := get_str p "qgisminimumversion" "3.22" in
  let homepage := get_str p "homepage" "" in
  let author := get_str p "author" "Unknown" in
  let tracker := get_str p "tracker" "" in
  let repository := get_str p "repository" "" in
  let experimental := get_str p "experimental" "False" in
  let deprecated := get_str p "deprecated" "False" in
  let tags := get_str p "tags" "" in
  let category := get_str p "category" "Plugins" in
  let icon := get_str p "icon" "icons/icon.png" in
  let download_url := "https://qgis.gishub.org/" +:+ zip_path in
  [ "    <pyqgis_plugin name=" +:+ dq +:+ name +:+ dq +:+ " version=" +:+ dq +:+
      version +:+ dq +:+ ">" +:+ nl;
    xml_element "description" description;
    xml_element "about" about;
    xml_element "version" version;
    xml_element "qgis_minimum_version" qgis_min;
    xml_element "homepage" homepage;
    xml_element "file_name" zip_filename;
    xml_element "icon" icon;
    xml_element "author_name" author;
    xml_element "download_url" download_url;
    xml_element "uploaded_by" "giswqs";
    xml_element "experimental" experimental;
    xml_element "deprecated" deprecated;
    xml_element "tracker" tracker;
    xml_element "repository" repository;
    xml_element "tags" tags;
    xml_element "category" category;
    "    </pyqgis_plugin>" +:+ nl;
    nl ].

(** The element appended to [xml_content] for one record; [None] is the
    KeyError of a missing item. *)
Definition xml_block (p : record) : option string :=
  zip_filename ← item_str p "zip_filename";
  zip_path ← item_str p "zip_path";
  Some (join_all (xml_block_pieces p zip_filename zip_path)).



(** *** Rendering rules, as the specification words them *)

(** Every character replaced on its own. *)
Fixpoint subst_chars (f : ascii -> string) (s : string) : string :=
  match s with
  | EmptyString => EmptyString
  | String c s' => f c +:+ subst_chars f s'
  end.

(** The escape of one character of the [about] text. *)
Definition xml_escape_char (c : ascii) : string :=
  if Ascii.eqb c "&" then "&amp;"
  else if Ascii.eqb c "<" then "&lt;"
  else if Ascii.eqb c ">" then "&gt;"
  else String c EmptyString.

(** The tags that get a badge: of the first five pieces, trimmed, those
    that are not empty. *)
Definition shown_tags (tags : string) : list string :=
  List.filter nonempty (map PyStr.strip (take 5 (PyStr.split "," tags))).

(** The display name, by which the specification says the HTML pass and
    the XML pass sort. *)
Definition html_display_name (p : record) : string :=
  get_str p "name" (get_str p "filename" "").
Definition xml_display_name (p : record) : string :=
  get_str p "name" "Unknown".

(** ** [install_plugin] *)

(** A file or a directory with its entries by name. *)
#[warnings="-register-all"]
Inductive node :=
  | File (content : list byte)
  | Dir (children : list (string * node)).

(** The entries of one directory, and the entries of the target root. *)
Abbreviation entries := (list (string * node)).
Abbreviation folder := (gmap string node).

Fixpoint entry_lookup (name : string) (children : entries) : option node :=
  match children with
  | [] => None
  | (n, x) :: rest => if String.eqb n name then Some x else entry_lookup name rest
  end.

Fixpoint entry_remove (name : string) (children : entries) : entries :=
  match children with
  | [] => []
  | (n, x) :: rest =>
      if String.eqb n name then entry_remove name rest
      else (n, x) :: entry_remove name rest
  end.

(** [ZipFile.extractall(path)]: given the archive and the entries of
    [path] when it is a directory already ([None] when nothing is there),
    the entries of [path] afterwards ([None] when an archive without
    members left it absent); the outer [None] is an exception. *)
Class ZipLib := {
  extractall : ZipFile -> option entries -> option (option entries)
}.

(** [PurePath.stem] of a file name: the name up to its last dot, when
    that dot is neither the first nor the last character. *)
Definition stem (name : string) : string :=
  match OsPath.rfind "." name with
  | Some i =>
      if (0 <? i)%nat && (i <? String.length name - 1)%nat
      then String.substring 0 i name else name
  | None => name
  end.

(** [d.is_dir()] for an entry of the temporary directory. *)
Definition is_dir (entry : string * node) : bool :=
  match entry.2 with Dir _ => true | File _ => false end.

(** Whether [target_dir / name] is the path of an entry of
    [target_dir].  It is not for two names: pathlib drops a component
    [.], so that [target_dir / "."] is [target_dir] itself, and keeps a
    component [..], which the file system resolves to the directory that
    holds [target_dir]. *)
Definition names_entry (name : string) : bool :=
  negb (String.eqb name ".") && negb (String.eqb name "..").

(** [if final_dir.exists(): shutil.rmtree(final_dir)], where [final_dir]
    is [target_dir / name]; [rmtree] raises on what is not a directory.
    When [name] is [.] or [..] the path exists and the removal takes
    [target_dir] with everything in it, the temporary directory
    included: no entry is left.  ([rmtree] may fail at its last step
    for [..]; the move that follows fails in any case, its source being
    gone, so the call raises either way with this state.) *)
Definition remove_existing (name : string) (target : folder) : option folder :=
  if names_entry name then
    match target !! name with
    | None => Some target
    | Some (Dir _) => Some (delete name target)
    | Some (File _) => None
    end
  else Some ∅.

(** Where [shutil.move] puts a directory [moved], called [name], that it
    was asked to move to [dst] in the target root: under the name [dst]
    when nothing is there, inside [dst] when that is a directory without
    an entry of that name. *)
Definition place (moved : node) (name dst : string) (target : folder)
  : option folder :=
  match target !! dst with
  | None => Some (<[dst := moved]> target)
  | Some (Dir inside) =>
      match entry_lookup name inside with
      | None => Some (<[dst := Dir (inside ++ [(name, moved)])]> target)
      | Some _ => None
      end
  | Some (File _) => None
  end.

(** [shutil.move(str(plugin_dir), str(final_dir))], the source being the
    entry [name] of the temporary directory. *)
Definition move_out (temp name : string) (target : folder) : option folder :=
  match target !! temp with
  | Some (Dir children) =>
      moved ← entry_lookup name children;
      place moved name name
            (<[temp := Dir (entry_remove name children)]> target)
  | _ => None
  end.

(** [shutil.move(str(temp_dir), str(final_dir))] *)
Definition move_dir (temp dst : string) (target : folder) : option folder :=
  moved ← target !! temp;
  place moved temp dst (delete temp target).

(** What is at the path of the temporary directory before the
    extraction: nothing, or a directory with its entries; a file there
    makes the extraction raise. *)
Definition dir_entries (x : option node) : option (option entries) :=
  match x with
  | None => Some None
  | Some (Dir children) => Some (Some children)
  | Some (File _) => None
  end.

(** The [try] block.  The result is [Some true] when it ends with
    [temp_dir] still set, [Some false] when it ends with [temp_dir =
    None], and [None] when it raises; the folder is the target root at
    that point.  An extraction that raises may leave part of the archive
    in the temporary directory, which the [finally] clause then removes:
    the folder given for that case is the one before the extraction. *)
Definition install_try `{ZipLib} (plugin_name temp_dir : string)
    (zip : option ZipFile) (target : folder) : option bool * folder :=
  match zip with
  | None => (None, target)
  | Some zip_ref =>
      match dir_entries (target !! temp_dir) ≫= extractall zip_ref with
      | None | Some None => (None, target)
      | Some (Some extracted) =>
          let target := <[temp_dir := Dir extracted]> target in
          match List.filter is_dir extracted with
          | [(name, _)] =>
              match remove_existing name target ≫= move_out temp_dir name with
              | Some target' => (Some true, target')
              | None =>
                  (None, default target (remove_existing name target))
              end
          | _ =>
              match remove_existing plugin_name target
                    ≫= move_dir temp_dir plugin_name with
              | Some target' => (Some false, target')
              | None =>
                  (None, default target (remove_existing plugin_name target))
              end
          end
      end
  end.

Inductive outcome := Installed | Raised.

(** [install_plugin(zip_path, target_dir)]: [zip_name] is the archive's
    file name, [zip] what opening it gives, [target] the entries of
    [target_dir], none when the directory does not exist (the
    extraction makes it as needed).  The [finally] clause removes the
    temporary directory when [temp_dir] is still set and exists. *)
Definition install_plugin `{ZipLib} (zip_name : string) (zip : option ZipFile)
    (target : folder) : outcome * folder :=
  let plugin_name := stem zip_name in
  let temp_dir := "_temp_" +:+ plugin_name in
  let '(result, target) := install_try plugin_name temp_dir zip target in
  match result with
  | Some false => (Installed, target)
  | _ =>
      let result :=
        match result with Some _ => Installed | None => Raised end in
      match target !! temp_dir with
      | None => (result, target)
      | Some (Dir _) => (result, delete temp_dir target)
      | Some (File _) => (Raised, target)
      end
  end.

(** *** An instance of the extraction interface, for the examples

    Members are placed by the components of their names; a name ending
    in a slash is a directory. *)

Fixpoint entry_set (name : string) (x : node) (children : entries) : entries :=
  match children with
  | [] => [(name, x)]
  | (n, y) :: rest =>
      if String.eqb n name then (n, x) :: rest
      else (n, y) :: entry_set name x rest
  end.

Fixpoint place_member (path : list string) (content : list byte)
    (children : entries) : option entries :=
  match path with
  | [] => Some children
  | [name] =>
      if nonempty name then
        match entry_lookup name children with
        | Some (Dir _) => None
        | _ => Some (entry_set name (File content) children)
        end
      else Some children
  | dir :: rest =>
      inside ← match entry_lookup dir children with
               | Some (Dir inside) => Some inside
               | Some (File _) => None
               | None => Some []
               end;
      inside' ← place_member rest content inside;
      Some (entry_set dir (Dir inside') children)
  end.

Fixpoint place_members (zf : ZipFile) (children : entries) : option entries :=
  match zf with
  | [] => Some children
  | info :: rest =>
      match zi_data info with
      | Data bytes =>
          place_member (PyStr.split "/" (zi_filename info)) bytes children
            ≫= place_members rest
      | _ => None
      end
  end.

Definition tree_zip_lib : ZipLib :=
  {| extractall zf existing :=
       match zf with
       | [] => Some existing
       | _ => Some <$> place_members zf (default [] existing)
       end |}.

Definition member (name : string) (bytes : list byte) : ZipInfo :=
  {| zi_filename := name; zi_date_time := (2024, 3, 5, 10, 20, 30);
     zi_data := Data bytes |}.

(** [bundle.zip]: one top-level directory and a top-level file. *)
Definition bundle_zip : ZipFile :=
  [ member "plug/__init__.py" [x01]; member "README.txt" [x02] ].




(** *** The rules of the search, as the specification words them *)

(** The candidates that priority 1 tries for a declared path. *)
Definition declared_candidates (plugin_name : string)
    (metadata_icon_path : option string) : list string :=
  match metadata_icon_path with
  | Some path =>
      if truthy metadata_icon_path
      then metadata_icon_candidates plugin_name path else []
  | None => []
  end.

(** The extension given to an icon found through a declared path. *)
Definition declared_extension (icon_path : string) : string :=
  match OsPath.splitext_ext icon_path with
  | EmptyString => ".png"
  | e => e
  end.

Definition ends_icon_png (name : string) : bool :=
  PyStr.endswith name "icon.png" || PyStr.endswith name "/icon.png".

Definition ends_icon_svg (name : string) : bool :=
  PyStr.endswith name "icon.svg" || PyStr.endswith name "/icon.svg".

(** An image under an [/icons/] directory whose name has no skip word. *)
Definition icons_dir_image (name : string) : bool :=
  PyStr.contains "/icons/" name &&
  (PyStr.endswith name ".svg" || PyStr.endswith name ".png") &&
  negb (is_skipped name).

(** An entry that one of the rules of the generic scan accepts. *)
Definition scan_match (name : string) : bool :=
  ends_icon_png name || ends_icon_svg name || icons_dir_image name.

(** The extension under which the generic scan stores an accepted entry. *)
Definition scan_extension (name : string) : string :=
  if ends_icon_png name then ".png"
  else if ends_icon_svg name then ".svg"
  else if PyStr.endswith name ".svg" then ".svg" else ".png".

(** What the specification's steps 3 and 4 describe: the first entry
    ending in [icon.png]; failing that the first ending in [icon.svg];
    failing that the first image under [/icons/]. *)
Definition staged_scan_choice (names : list string) : option string :=
  match List.find ends_icon_png names with
  | Some name => Some name
  | None =>
      match List.find ends_icon_svg names with
      | Some name => Some name
      | None => List.find icons_dir_image names
      end
  end.

(** The outcome of copying member [info] to [icons/<icon_filename>]. *)
Definition copied (info : ZipInfo) (icon_filename : string) (fs : files)
  : option string * files :=
  match zi_data info with
  | Data bytes =>
      (Some ("icons/" +:+ icon_filename),
       <[OsPath.join "icons" icon_filename := bytes]> fs)
  | ReadRaises => (None, <[OsPath.join "icons" icon_filename := []]> fs)
  | OpenRaises => (None, fs)
  end.

(** An archive whose first entry ends in [icon.svg] and whose second
    ends in [icon.png], neither at a conventional location of plugin
    [demo]. *)
Definition svg_first_archive : ZipFile :=
  [ {| zi_filename := "demo/img/icon.svg";
       zi_date_time := (2024, 1, 2, 3, 4, 6);
       zi_data := Data [x01] |};
    {| zi_filename := "demo/img/icon.png";
       zi_date_time := (2024, 1, 2, 3, 4, 6);
       zi_data := Data [x02] |} ].

(** An archive of plugin [demo] with an icon at a declared path
    ([art/logo.png]), one at a conventional location and one that only
    the generic scan finds. *)
Definition declared_icon_archive : ZipFile :=
  [ {| zi_filename := "other/icon.svg";
       zi_date_time := (2024, 1, 2, 3, 4, 6);
       zi_data := Data [x05] |};
    {| zi_filename := "demo/icon.png";
       zi_date_time := (2024, 1, 2, 3, 4, 6);
       zi_data := Data [x04] |};
    {| zi_filename := "demo/art/logo.png";
       zi_date_time := (2024, 1, 2, 3, 4, 6);
       zi_data := Data [x03] |} ].

(** The order a sort by [key] establishes. *)
Definition key_le {A} (key : A -> string) (x y : A) : Prop :=
  String.le (key x) (key y).

(** The order of the catalog: by lower-cased name. *)
Definition name_le : record -> record -> Prop := key_le name_key.

(** A record without a [name], as the HTML pass builds it, and one named
    [Alpha]. *)
Definition nameless_record : record :=
  <["filename" := VStr "plugins/b.zip"]>
    (<["zip_path" := VStr "plugins/b.zip"]>
       (<["version" := VStr "1.0"]> ∅)).

Definition alpha_record : record :=
  <["filename" := VStr "plugins/a.zip"]>
    (<["zip_path" := VStr "plugins/a.zip"]>
       (<["name" := VStr "Alpha"]> ∅)).

(** A record as the passes build it for an archive [demo.zip] whose
    descriptor gives a name and nothing else. *)
Definition bare_record : record :=
  list_to_map
    [ ("name", VStr "Demo");
      ("filename", VStr "plugins/demo.zip");
      ("filesize", VStr "2.0 KB");
      ("modified", VStr "2024-01-02");
      ("icon_path", VNone);
      ("zip_filename", VStr "demo.zip");
      ("zip_path", VStr "plugins/demo.zip") ].

(** *** Archives that give no metadata *)

(** The first name of the archive that ends in [metadata.txt]. *)
Definition descriptor_name (zf : ZipFile) : option string :=
  List.find (fun name => PyStr.endswith name "metadata.txt") (namelist zf).

(** The ways in which an archive fails to give metadata: it cannot be
    opened; no entry ends with the descriptor's name; the descriptor's
    timestamp is no date; reading it raises; its bytes do not decode; its
    text does not parse; the parsed text has no [general] section, or one
    whose options cannot be read. *)
Inductive no_metadata `{ConfigLib} : option ZipFile -> Prop :=
  | cannot_open : no_metadata None
  | no_descriptor zf :
      Forall (fun name => PyStr.endswith name "metadata.txt" = false) (namelist zf) ->
      no_metadata (Some zf)
  | bad_timestamp zf name info :
      descriptor_name zf = Some name -> getinfo zf name = Some info ->
      datetime_of (zi_date_time info) = None ->
      no_metadata (Some zf)
  | unreadable zf name info :
      descriptor_name zf = Some name -> getinfo zf name = Some info ->
      (zi_data info = OpenRaises \/ zi_data info = ReadRaises) ->
      no_metadata (Some zf)
  | undecodable zf name info bytes :
      descriptor_name zf = Some name -> getinfo zf name = Some info ->
      zi_data info = Data bytes -> decode_utf8 bytes = None ->
      no_metadata (Some zf)
  | unparsable zf name info bytes content :
      descriptor_name zf = Some name -> getinfo zf name = Some info ->
      zi_data info = Data bytes -> decode_utf8 bytes = Some content ->
      read_string content = None ->
      no_metadata (Some zf)
  | no_general_section zf name info bytes content config :
      descriptor_name zf = Some name -> getinfo zf name = Some info ->
      zi_data info = Data bytes -> decode_utf8 bytes = Some content ->
      read_string content = Some config ->
      (config !! "general" = None \/ config !! "general" = Some ItemsRaise) ->
      no_metadata (Some zf).

(** *** An instance of the library interface, for the examples

    Text of seven-bit characters, and descriptors made of one section
    header followed by [key=value] lines. *)

Definition ascii_decode (bytes : list byte) : option string :=
  if forallb (fun b => (Byte.to_N b <? 128)%N) bytes
  then Some (string_of_list_byte bytes) else None.

Fixpoint line_options (lines : list string) : option (gmap string string) :=
  match lines with
  | [] => Some ∅
  | line :: rest =>
      options ← line_options rest;
      if nonempty (PyStr.strip line) then
        match PyStr.split "=" line with
        | [key; val] =>
            Some (<[PyStr.lower (PyStr.strip key) := PyStr.strip val]> options)
        | _ => None
        end
      else Some options
  end.

Definition line_read_string (content : string) : option ConfigParser :=
  match PyStr.split "010" content with
  | header :: lines =>
      if PyStr.startswith header "[" && PyStr.endswith header "]" then
        options ← line_options lines;
        Some {[ String.substring 1 (String.length header - 2) header
                  := Items options ]}
      else None
  | [] => None
  end.

Definition line_config_lib : ConfigLib :=
  {| decode_utf8 := ascii_decode; read_string := line_read_string |}.

Definition descriptor_entry (name content : string) : ZipInfo :=
  {| zi_filename := name;
     zi_date_time := (2024, 3, 5, 10, 20, 30);
     zi_data := Data (list_byte_of_string content) |}.

(** [a.zip]: a descriptor naming the plugin [Alpha], and an icon. *)
Definition alpha_file : plugin_file :=
  {| pf_filename := "a.zip"; pf_size := 2048;
     pf_mtime := {| year := 2025; month := 7; day := 1;
                    hour := 0; minute := 0; second := 0 |};
     pf_zip := Some
       [ descriptor_entry "a/metadata.txt"
           ("[general]" +:+ nl +:+ "name=Alpha" +:+ nl +:+ "version=1.2");
         {| zi_filename := "a/icon.png";
            zi_date_time := (2024, 3, 5, 10, 20, 30);
            zi_data := Data [x01] |} ] |}.

(** [b.zip]: a descriptor without a name. *)
Definition nameless_file : plugin_file :=
  {| pf_filename := "b.zip"; pf_size := 500;
     pf_mtime := {| year := 2025; month := 7; day := 2;
                    hour := 0; minute := 0; second := 0 |};
     pf_zip := Some
       [ descriptor_entry "b/metadata.txt"
           ("[general]" +:+ nl +:+ "version=0.3") ] |}.

(** [c.zip]: an archive without a descriptor. *)
Definition bare_file : plugin_file :=
  {| pf_filename := "c.zip"; pf_size := 10;
     pf_mtime := {| year := 2025; month := 7; day := 3;
                    hour := 0; minute := 0; second := 0 |};
     pf_zip := Some
       [ {| zi_filename := "c/readme.txt";
            zi_date_time := (2024, 3, 5, 10, 20, 30);
            zi_data := Data [] |} ] |}.

(** Records named [zeta] and [Alpha]. *)
Definition zeta_record : record := {[ "name" := VStr "zeta" ]}.

(** The directory of the examples. *)
Definition example_dir : list plugin_file :=
  [nameless_file; bare_file; alpha_file].

(** [d.zip]: a descriptor whose text has no [general] section. *)
Definition sectionless_file : plugin_file :=
  {| pf_filename := "d.zip"; pf_size := 64;
     pf_mtime := {| year := 2025; month := 7; day := 4;
                    hour := 0; minute := 0; second := 0 |};
     pf_zip := Some
       [ descriptor_entry "d/metadata.txt"
           ("[plugin]" +:+ nl +:+ "name=Delta") ] |}.



(** ** The rest of the installer: [get_qgis_plugins_dir],
    [find_plugin_zips] and [main] *)







(** The loop of [main]: [installed], [failed] and the target root after
    the archives left to install. *)
Fixpoint install_all `{ZipLib} (plugin_zips : list plugin_file)
    (installed failed : nat) (target : folder) : nat * nat * folder :=
  match plugin_zips with
  | [] => (installed, failed, target)
  | zip_file :: rest =>
      match install_plugin (pf_filename zip_file) (pf_zip zip_file) target with
      | (Installed, target') => install_all rest (S installed) failed target'
      | (Raised, target') => install_all rest installed (S failed) target'
      end
  end.



(** *** Notions used by the further properties *)


(** The archives a pass makes a record for. *)
Definition usable `{ConfigLib} (f : plugin_file) : bool :=
  PyStr.endswith (pf_filename f) ".zip" &&
  bool_decide (parse_metadata (pf_zip f) <> ∅).

(** The keys a pass adds to the descriptor's. *)
Definition html_derived_keys : list string :=
  ["icon_path"; "filename"; "filesize"; "modified"].


(** A record of the HTML pass that stands for archive [f]: its derived
    fields come from the archive and its other fields from the
    descriptor. *)
Definition describes_html `{ConfigLib} (f : plugin_file) (p : record) : Prop :=
  p !! "filename" = Some (VStr ("plugins/" +:+ pf_filename f)) /\
  p !! "filesize" = Some (VStr (get_file_size (pf_size f))) /\
  (exists date, parse_metadata (pf_zip f) !! "_metadata_date" = Some (VDate date) /\
                p !! "modified" = Some (VStr (strftime_ymd date))) /\
  (exists icon, p !! "icon_path" = Some (value_of_opt icon)) /\
  (forall key, key ∉ html_derived_keys ->
               p !! key = parse_metadata (pf_zip f) !! key).

(** The same for the XML pass. *)
Definition describes_xml `{ConfigLib} (f : plugin_file) (p : record) : Prop :=
  p !! "zip_filename" = Some (VStr (pf_filename f)) /\
  p !! "zip_path" = Some (VStr ("plugins/" +:+ pf_filename f)) /\
  (forall key, key <> "zip_filename" -> key <> "zip_path" ->
               p !! key = parse_metadata (pf_zip f) !! key).


(** * Properties *)

(** ** Strings *)

Lemma str_app_assoc (a b c : string) : (a +:+ b) +:+ c = a +:+ b +:+ c.
Proof. induction a as [|x a IH]; [reflexivity |]. cbn. by rewrite IH. Qed.

Lemma str_app_nil_r (a : string) : a +:+ "" = a.
Proof. induction a as [|x a IH]; [reflexivity |]. cbn. by rewrite IH. Qed.


(** ** Size formatting *)

Lemma round_tenths_nearest num den :
  0 < den -> 0 <= num ->
  2 * Z.abs (10 * num - round_tenths num den * den) <= den.
Proof.
  intros Hden Hnum. unfold round_tenths.
  pose proof (Z.div_mod (10 * num) den ltac:(lia)) as Hdm.
  pose proof (Z.mod_pos_bound (10 * num) den Hden) as Hb.
  set (q := 10 * num / den) in *. set (r := (10 * num) mod den) in *.
  repeat match goal with
         | |- context [if ?b then _ else _] => destruct b eqn:?
         end; lia.
Qed.

Lemma get_file_size_loop_hit units unit rest num den skipped :
  units = skipped ++ unit :: rest ->
  0 < den ->
  1024 ^ Z.of_nat (length skipped) * den <= num \/ skipped = [] ->
  num < 1024 ^ Z.of_nat (S (length skipped)) * den ->
  get_file_size_loop units num den =
    format_1f num (den * 1024 ^ Z.of_nat (length skipped)) +:+ " " +:+ unit.
Proof.
  revert units den.
  induction skipped as [|u skipped IH]; intros units den -> Hden Hlo Hhi.
  - cbn [app get_file_size_loop length] in *.
    change (Z.of_nat 0) with 0. rewrite Z.pow_0_r, Z.mul_1_r.
    change (Z.of_nat 1) with 1 in Hhi. rewrite Z.pow_1_r in Hhi.
    destruct (Z.ltb_spec num (1024 * den)); [reflexivity | lia].
  - cbn [app get_file_size_loop length].
    destruct Hlo as [Hlo | Hnil]; [| discriminate Hnil].
    cbn [length] in Hlo, Hhi.
    rewrite Nat2Z.inj_succ, Z.pow_succ_r in Hlo by lia.
    rewrite (Nat2Z.inj_succ (S _)), Z.pow_succ_r in Hhi by lia.
    assert (0 < 1024 ^ Z.of_nat (length skipped)) by (apply Z.pow_pos_nonneg; lia).
    destruct (Z.ltb_spec num (1024 * den)); [nia |].
    rewrite (IH _ (den * 1024) eq_refl); [| lia | left; nia | nia].
    rewrite Nat2Z.inj_succ, Z.pow_succ_r by lia. do 2 f_equal. lia.
Qed.

Lemma get_file_size_loop_miss units num den :
  0 < den ->
  1024 ^ Z.of_nat (length units) * den <= num ->
  get_file_size_loop units num den =
    format_1f num (den * 1024 ^ Z.of_nat (length units)) +:+ " TB".
Proof.
  revert den. induction units as [|u units IH]; intros den Hden Hlo.
  - cbn [get_file_size_loop length].
    change (Z.of_nat 0) with 0. by rewrite Z.pow_0_r, Z.mul_1_r.
  - cbn [get_file_size_loop length] in *.
    rewrite Nat2Z.inj_succ, Z.pow_succ_r in * by lia.
    assert (0 < 1024 ^ Z.of_nat (length units)) by (apply Z.pow_pos_nonneg; lia).
    destruct (Z.ltb_spec num (1024 * den)); [nia |].
    rewrite IH; [| lia | nia]. do 2 f_equal. lia.
Qed.

(** C6: [get_file_size] divides the size by 1024 while it is at least
    1024 and a unit is left, so a size in the range of the [k]-th unit
    (B, KB, MB, GB; TB takes everything from 1024^4 on) is printed as
    [size / 1024^k] with one decimal, rounded to the nearest tenth,
    followed by that unit; 500, 2048 and 1048576 bytes give
    "500.0 B", "2.0 KB" and "1.0 MB". *)
Theorem get_file_size_spec :
  (forall (size : Z) (k : nat) (unit : string),
      0 <= size < 2 ^ 53 ->
      size_units !! k = Some unit ->
      (k = O \/ 1024 ^ Z.of_nat k <= size) ->
      (k = 4%nat \/ size < 1024 ^ Z.of_nat (S k)) ->
      get_file_size size =
        PyStr.of_Z (round_tenths size (1024 ^ Z.of_nat k) / 10) +:+ "." +:+
        PyStr.of_Z (round_tenths size (1024 ^ Z.of_nat k) mod 10) +:+
        " " +:+ unit
      /\ 2 * Z.abs (10 * size - round_tenths size (1024 ^ Z.of_nat k) * 1024 ^ Z.of_nat k)
         <= 1024 ^ Z.of_nat k)
  /\ get_file_size 500 = "500.0 B"
  /\ get_file_size 2048 = "2.0 KB"
  /\ get_file_size 1048576 = "1.0 MB".
Proof.
  split; [| by vm_compute].
  intros size k unit [Hsize _] Hunit Hlo Hhi. split.
  2: { apply round_tenths_nearest; [apply Z.pow_pos_nonneg; lia | done]. }
  unfold get_file_size, format_1f.
  destruct k as [|[|[|[|[|k]]]]]; try discriminate Hunit;
    injection Hunit as <-.
  5: { rewrite get_file_size_loop_miss by (simpl length; lia).
       unfold format_1f. simpl length. rewrite Z.mul_1_l.
       by rewrite !str_app_assoc. }
  all: destruct Hhi as [? | Hhi]; [lia |].
  - rewrite (get_file_size_loop_hit _ "B" ["KB"; "MB"; "GB"] _ _ []);
      [| done | lia | by right | simpl length; lia].
    unfold format_1f. simpl length. rewrite Z.mul_1_l.
    by rewrite !str_app_assoc.
  - rewrite (get_file_size_loop_hit _ "KB" ["MB"; "GB"] _ _ ["B"]);
      [| done | lia | left; simpl length; lia | simpl length; lia].
    unfold format_1f. simpl length. rewrite Z.mul_1_l.
    by rewrite !str_app_assoc.
  - rewrite (get_file_size_loop_hit _ "MB" ["GB"] _ _ ["B"; "KB"]);
      [| done | lia | left; simpl length; lia | simpl length; lia].
    unfold format_1f. simpl length. rewrite Z.mul_1_l.
    by rewrite !str_app_assoc.
  - rewrite (get_file_size_loop_hit _ "GB" [] _ _ ["B"; "KB"; "MB"]);
      [| done | lia | left; simpl length; lia | simpl length; lia].
    unfold format_1f. simpl length. rewrite Z.mul_1_l.
    by rewrite !str_app_assoc.
Qed.

Lemma get_file_size_spec_witness :
  get_file_size 1536 = "1.5 KB" /\ get_file_size 1280 = "1.2 KB".
Proof.
  split.
  - destruct (proj1 get_file_size_spec 1536 1%nat "KB") as [Hprinted _];
      [lia | reflexivity | right; vm_compute; discriminate
      | right; vm_compute; reflexivity |].
    exact Hprinted.
  - destruct (proj1 get_file_size_spec 1280 1%nat "KB") as [Hprinted _];
      [lia | reflexivity | right; vm_compute; discriminate
      | right; vm_compute; reflexivity |].
    exact Hprinted.
Defined.

(** ** Icon extraction *)

Lemma getinfo_Some zf name info :
  getinfo zf name = Some info -> info ∈ zf /\ zi_filename info = name.
Proof.
  induction zf as [|i zf IH]; [discriminate |].
  cbn [getinfo]. destruct (getinfo zf name) as [later|] eqn:E.
  - intros [= <-]. destruct (IH eq_refl) as [? ?]. split; [by right | done].
  - destruct (String.eqb_spec (zi_filename i) name); [| discriminate].
    intros [= <-]. split; [by left | done].
Qed.

Lemma getinfo_in_namelist zf name :
  name ∈ namelist zf -> exists info, getinfo zf name = Some info.
Proof.
  unfold namelist. induction zf as [|i zf IH]; cbn [map getinfo].
  - by intros ?%elem_of_nil.
  - intros [Hhd | Htl]%elem_of_cons.
    + destruct (getinfo zf name); [eauto |].
      rewrite <- Hhd, String.eqb_refl. eauto.
    + destruct (IH Htl) as [info ->]. eauto.
Qed.

(** Copying a member that the name list holds is copying the member
    that [getinfo] finds under that name. *)
Lemma copy_icon_copied zf name icon_filename fs :
  name ∈ namelist zf ->
  exists info, info ∈ zf /\ zi_filename info = name /\
    getinfo zf name = Some info /\
    copy_icon zf name icon_filename fs = copied info icon_filename fs.
Proof.
  intros [info Hinfo]%getinfo_in_namelist.
  destruct (getinfo_Some _ _ _ Hinfo) as [Hin Hname].
  exists info. repeat split; try done.
  unfold copy_icon, copied. rewrite Hinfo. cbn.
  by destruct (zi_data info).
Qed.

Lemma try_metadata_candidates_miss zf plugin_name candidates fs :
  Forall (fun c => c ∉ namelist zf) candidates ->
  try_metadata_candidates zf plugin_name candidates fs = None.
Proof.
  induction 1 as [|c cs Hc _ IH]; [done |].
  cbn [try_metadata_candidates]. by rewrite bool_decide_eq_false_2.
Qed.

Lemma try_metadata_candidates_hit zf plugin_name candidates fs before c after :
  candidates = before ++ c :: after ->
  Forall (fun c => c ∉ namelist zf) before ->
  c ∈ namelist zf ->
  try_metadata_candidates zf plugin_name candidates fs =
    Some (copy_icon zf c (plugin_name +:+ declared_extension c) fs).
Proof.
  intros -> Hbefore Hc. induction Hbefore as [|b bs Hb _ IH].
  - cbn [app try_metadata_candidates]. by rewrite bool_decide_eq_true_2.
  - cbn [app try_metadata_candidates]. by rewrite bool_decide_eq_false_2.
Qed.

Lemma try_icon_candidates_miss zf plugin_name candidates fs :
  Forall (fun c => c.1 ∉ namelist zf) candidates ->
  try_icon_candidates zf plugin_name candidates fs = None.
Proof.
  induction 1 as [|[c e] cs Hc _ IH]; [done |].
  cbn [try_icon_candidates]. by rewrite bool_decide_eq_false_2.
Qed.

Lemma try_icon_candidates_hit zf plugin_name candidates fs before c e after :
  candidates = before ++ (c, e) :: after ->
  Forall (fun c => c.1 ∉ namelist zf) before ->
  c ∈ namelist zf ->
  try_icon_candidates zf plugin_name candidates fs =
    Some (copy_icon zf c (plugin_name +:+ e) fs).
Proof.
  intros -> Hbefore Hc. induction Hbefore as [|[b be] bs Hb _ IH].
  - cbn [app try_icon_candidates]. by rewrite bool_decide_eq_true_2.
  - cbn [app try_icon_candidates]. by rewrite bool_decide_eq_false_2.
Qed.

(** When the declared path gives nothing, the search goes on with the
    conventional locations. *)
Lemma extract_plugin_icon_no_declared zf plugin_name declared fs :
  Forall (fun c => c ∉ namelist zf) (declared_candidates plugin_name declared) ->
  extract_plugin_icon (Some zf) plugin_name declared fs =
    match try_icon_candidates zf plugin_name (icon_candidates plugin_name) fs with
    | Some result => result
    | None => scan_names zf plugin_name (namelist zf) fs
    end.
Proof.
  intros Hmiss. unfold extract_plugin_icon, declared_candidates in *.
  destruct declared as [path|]; [| done].
  destruct (truthy (Some path)); [| done].
  by rewrite try_metadata_candidates_miss.
Qed.

(** The loop stops at the first entry that any of its rules accepts. *)
Lemma scan_names_first_match zf plugin_name names fs :
  scan_names zf plugin_name names fs =
    match List.find scan_match names with
    | Some name => copy_icon zf name (plugin_name +:+ scan_extension name) fs
    | None => (None, fs)
    end.
Proof.
  induction names as [|name rest IH]; [done |].
  cbn [scan_names List.find].
  fold (ends_icon_png name) (ends_icon_svg name).
  unfold scan_match at 1, icons_dir_image.
  destruct (ends_icon_png name) eqn:Hpng;
    [cbn [orb]; unfold scan_extension; by rewrite Hpng |].
  destruct (ends_icon_svg name) eqn:Hsvg;
    [cbn [orb]; unfold scan_extension; by rewrite Hpng, Hsvg |].
  cbn [orb].
  destruct (PyStr.contains "/icons/" name &&
            (PyStr.endswith name ".svg" || PyStr.endswith name ".png")); cbn [andb].
  - destruct (is_skipped name); cbn [negb]; [apply IH |].
    unfold scan_extension. by rewrite Hpng, Hsvg.
  - apply IH.
Qed.

Lemma find_first_split {A} (f : A -> bool) (before : list A) x after :
  Forall (fun y => f y = false) before -> f x = true ->
  List.find f (before ++ x :: after) = Some x.
Proof.
  intros Hbefore Hx. induction Hbefore as [|b bs Hb _ IH]; cbn [app List.find].
  - by rewrite Hx.
  - by rewrite Hb.
Qed.

Lemma find_none_Forall {A} (f : A -> bool) (l : list A) :
  Forall (fun y => f y = false) l -> List.find f l = None.
Proof.
  induction 1 as [|b bs Hb _ IH]; [done |]. cbn [List.find]. by rewrite Hb.
Qed.

(** C1 (amended): when neither the declared path nor a conventional
    location matches, the entry list is traversed once and the first
    entry that any rule accepts (a name ending in [icon.png], a name
    ending in [icon.svg], or an image under [/icons/] without a skip
    word) is the one copied, under the extension of the rule that
    accepted it; no later entry is looked at, whatever its kind. *)
Theorem generic_scan_takes_first_match
    (zf : ZipFile) (plugin_name : string) (declared : option string)
    (fs : files) (before : list string) (name : string) (after : list string) :
  Forall (fun c => c ∉ namelist zf) (declared_candidates plugin_name declared) ->
  Forall (fun c => c.1 ∉ namelist zf) (icon_candidates plugin_name) ->
  namelist zf = before ++ name :: after ->
  Forall (fun n => scan_match n = false) before ->
  scan_match name = true ->
  exists info,
    info ∈ zf /\ zi_filename info = name /\ getinfo zf name = Some info /\
    extract_plugin_icon (Some zf) plugin_name declared fs =
      copied info (plugin_name +:+ scan_extension name) fs.
Proof.
  intros Hdecl Hconv Hnames Hbefore Hname.
  rewrite extract_plugin_icon_no_declared by done.
  rewrite try_icon_candidates_miss by done.
  rewrite scan_names_first_match, Hnames, (find_first_split _ _ _ _ Hbefore Hname).
  apply copy_icon_copied. rewrite Hnames. apply elem_of_app. right. by left.
Qed.

Lemma generic_scan_takes_first_match_witness :
  extract_plugin_icon (Some svg_first_archive) "demo" None ∅ =
    (Some "icons/demo.svg", {[ "icons/demo.svg" := [x01] ]}).
Proof.
  destruct (generic_scan_takes_first_match svg_first_archive "demo" None ∅
              [] "demo/img/icon.svg" ["demo/img/icon.png"])
    as (info & _ & _ & Hget & ->).
  - vm_compute. constructor.
  - compute_done.
  - reflexivity.
  - constructor.
  - vm_compute. reflexivity.
  - vm_compute in Hget. injection Hget as <-. vm_compute. reflexivity.
Defined.

(** Against C1 as worded: in [svg_first_archive] no declared or
    conventional location matches and an entry ends in [icon.png], which
    the staged reading would choose; the code copies the earlier
    [icon.svg] entry instead. *)
Lemma generic_scan_png_not_preferred :
  declared_candidates "demo" None = [] /\
  Forall (fun c => c.1 ∉ namelist svg_first_archive) (icon_candidates "demo") /\
  staged_scan_choice (namelist svg_first_archive) = Some "demo/img/icon.png" /\
  extract_plugin_icon (Some svg_first_archive) "demo" None ∅ =
    (Some "icons/demo.svg", {[ "icons/demo.svg" := [x01] ]}) /\
  extract_plugin_icon (Some svg_first_archive) "demo" None ∅ <>
    copy_icon svg_first_archive "demo/img/icon.png" "demo.png" ∅.
Proof.
  split; [reflexivity |]. split; [compute_done |].
  split; [vm_compute; reflexivity |]. split; [vm_compute; reflexivity |].
  compute_done.
Qed.

(** C3: a declared icon path that names a member, as
    [<plugin-name>/<path>] or else as it stands, makes the extractor copy
    that member under the plugin's name and the path's extension,
    whatever conventional or other entries the archive holds; and when
    the declared path gives nothing, the first conventional location
    that names a member is copied, whatever entries the generic scan
    would accept.  [copied] spells the copy out: the member's bytes are
    written to [icons/<plugin-name><ext>] and that path is returned
    (nothing is returned when reading the member raises). *)
Theorem icon_priority_chain (zf : ZipFile) (plugin_name : string) (fs : files) :
  (forall (path : string) (before : list string) (c : string)
          (after : list string),
      path <> "" ->
      metadata_icon_candidates plugin_name path = before ++ c :: after ->
      Forall (fun c => c ∉ namelist zf) before ->
      c ∈ namelist zf ->
      exists info,
        info ∈ zf /\ zi_filename info = c /\ getinfo zf c = Some info /\
        extract_plugin_icon (Some zf) plugin_name (Some path) fs =
          copied info (plugin_name +:+ declared_extension c) fs)
  /\
  (forall (declared : option string) (before : list (string * string))
          (c e : string) (after : list (string * string)),
      Forall (fun c => c ∉ namelist zf) (declared_candidates plugin_name declared) ->
      icon_candidates plugin_name = before ++ (c, e) :: after ->
      Forall (fun c => c.1 ∉ namelist zf) before ->
      c ∈ namelist zf ->
      exists info,
        info ∈ zf /\ zi_filename info = c /\ getinfo zf c = Some info /\
        extract_plugin_icon (Some zf) plugin_name declared fs =
          copied info (plugin_name +:+ e) fs).
Proof.
  split.
  - intros path before c after Hpath Hcands Hbefore Hc.
    unfold extract_plugin_icon.
    assert (truthy (Some path) = true) as -> by (by destruct path).
    rewrite (try_metadata_candidates_hit _ _ _ _ _ _ _ Hcands Hbefore Hc).
    by apply copy_icon_copied.
  - intros declared before c e after Hdecl Hcands Hbefore Hc.
    rewrite extract_plugin_icon_no_declared by done.
    rewrite (try_icon_candidates_hit _ _ _ _ _ _ _ _ Hcands Hbefore Hc).
    by apply copy_icon_copied.
Qed.

Lemma icon_priority_chain_witness :
  extract_plugin_icon (Some declared_icon_archive) "demo" (Some "art/logo.png") ∅ =
    (Some "icons/demo.png", {[ "icons/demo.png" := [x03] ]}) /\
  extract_plugin_icon (Some declared_icon_archive) "demo" None ∅ =
    (Some "icons/demo.png", {[ "icons/demo.png" := [x04] ]}).
Proof.
  destruct (icon_priority_chain declared_icon_archive "demo" ∅) as [Hdecl Hconv].
  split.
  - destruct (Hdecl "art/logo.png" [] "demo/art/logo.png" ["art/logo.png"])
      as (info & _ & _ & Hget & ->).
    + discriminate.
    + reflexivity.
    + constructor.
    + compute_done.
    + vm_compute in Hget. injection Hget as <-. vm_compute. reflexivity.
  - destruct (Hconv None [("demo/icons/icon.png", ".png")] "demo/icon.png" ".png"
                (skipn 2 (icon_candidates "demo")))
      as (info & _ & _ & Hget & ->).
    + vm_compute. constructor.
    + reflexivity.
    + compute_done.
    + compute_done.
    + vm_compute in Hget. injection Hget as <-. vm_compute. reflexivity.
Defined.

(** ** Sorting *)

Section sort_by_key.
Context {A : Type} (key : A -> string).

Lemma insert_by_key_perm x l : Permutation (insert_by_key key x l) (x :: l).
Proof.
  induction l as [|y l IH]; cbn [insert_by_key]; [done |].
  destruct (String.leb (key x) (key y)); [done |].
  rewrite IH. apply perm_swap.
Qed.

Lemma sort_by_key_perm l : Permutation (sort_by_key key l) l.
Proof.
  induction l as [|x l IH]; cbn [sort_by_key]; [done |].
  by rewrite insert_by_key_perm, IH.
Qed.

Lemma insert_by_key_sorted x l :
  StronglySorted (key_le key) l -> StronglySorted (key_le key) (insert_by_key key x l).
Proof.
  induction 1 as [|y l Hl IH Hy]; cbn [insert_by_key].
  - repeat constructor.
  - destruct (String.leb (key x) (key y)) eqn:Hxy.
    + assert (key_le key x y) as Hle by (by apply Is_true_true).
      constructor; [by constructor |].
      constructor; [done |].
      eapply Forall_impl; [exact Hy |]. intros z Hz.
      unfold key_le in *. by etrans.
    + assert (key_le key y x) as Hle.
      { destruct (String.le_total (key x) (key y)) as [Hc | Hc]; [| done].
        apply Is_true_true in Hc. congruence. }
      constructor; [done |].
      rewrite (insert_by_key_perm x l). by constructor.
Qed.

Lemma sort_by_key_sorted l : StronglySorted (key_le key) (sort_by_key key l).
Proof.
  induction l as [|x l IH]; cbn [sort_by_key]; [constructor |].
  by apply insert_by_key_sorted.
Qed.

(** Stability: the elements of one key keep their order. *)
Lemma insert_by_key_stable k x l :
  List.filter (fun y => String.eqb (key y) k) (insert_by_key key x l) =
  List.filter (fun y => String.eqb (key y) k) (x :: l).
Proof.
  induction l as [|y l IH]; cbn [insert_by_key]; [done |].
  destruct (String.leb (key x) (key y)) eqn:Hxy; [done |].
  cbn [List.filter] in *. rewrite IH.
  destruct (String.eqb_spec (key x) k) as [Hx | Hx];
    destruct (String.eqb_spec (key y) k) as [Hy | Hy]; try done.
  exfalso. rewrite Hx, Hy in Hxy.
  assert (String.le k k) as Hrefl by done.
  apply Is_true_true in Hrefl. congruence.
Qed.

Lemma sort_by_key_stable k l :
  List.filter (fun y => String.eqb (key y) k) (sort_by_key key l) =
  List.filter (fun y => String.eqb (key y) k) l.
Proof.
  induction l as [|x l IH]; cbn [sort_by_key]; [done |].
  rewrite insert_by_key_stable. cbn [List.filter]. by rewrite IH.
Qed.
End sort_by_key.

(** ** Substrings and replacement *)

Lemma prefix_nil s : String.prefix "" s = true.
Proof. by destruct s. Qed.

Lemma prefix_app_mono sub a b :
  String.prefix sub a = true -> String.prefix sub (a +:+ b) = true.
Proof.
  revert a. induction sub as [|x sub IH]; intros a; [intros _; apply prefix_nil |].
  destruct a as [|y a]; [discriminate |]. cbn.
  destruct (ascii_dec x y); [apply IH | discriminate].
Qed.

Lemma prefix_app_refl a b : String.prefix a (a +:+ b) = true.
Proof.
  induction a as [|x a IH]; [apply prefix_nil |]. cbn.
  by destruct (ascii_dec x x).
Qed.

Lemma contains_cons sub x s :
  PyStr.contains sub (String x s) =
    String.prefix sub (String x s) || PyStr.contains sub s.
Proof. reflexivity. Qed.

Lemma contains_app_l sub a b :
  PyStr.contains sub a = true -> PyStr.contains sub (a +:+ b) = true.
Proof.
  induction a as [|x a IH].
  - cbn. rewrite orb_false_r. intros Hsub. destruct sub; [| discriminate].
    destruct b; cbn; by rewrite ?prefix_nil.
  - change (String x a +:+ b) with (String x (a +:+ b)).
    rewrite !contains_cons. intros [Hp | Hc]%orb_true_iff.
    + apply (prefix_app_mono _ _ b) in Hp.
      change (String x a +:+ b) with (String x (a +:+ b)) in Hp. by rewrite Hp.
    + rewrite (IH Hc). apply orb_true_r.
Qed.

Lemma contains_app_r sub a b :
  PyStr.contains sub b = true -> PyStr.contains sub (a +:+ b) = true.
Proof.
  intros Hb. induction a as [|x a IH]; [done |].
  change (String x a +:+ b) with (String x (a +:+ b)).
  rewrite contains_cons, IH. apply orb_true_r.
Qed.

Lemma contains_refl_app a b : PyStr.contains a (a +:+ b) = true.
Proof.
  pose proof (prefix_app_refl a b) as Hp.
  destruct (a +:+ b); cbn; cbn in Hp; by rewrite Hp.
Qed.

(** A piece of a concatenation occurs in it. *)
Lemma contains_join_all piece pieces :
  In piece pieces -> PyStr.contains piece (join_all pieces) = true.
Proof.
  induction pieces as [|q pieces IH]; [done |]. cbn [join_all fold_right].
  intros [-> | Hin].
  - apply contains_refl_app.
  - apply contains_app_r. by apply IH.
Qed.

Lemma contains_mid a b c : PyStr.contains b (a +:+ b +:+ c) = true.
Proof. apply contains_app_r, contains_refl_app. Qed.

Lemma subst_chars_app f a b :
  subst_chars f (a +:+ b) = subst_chars f a +:+ subst_chars f b.
Proof.
  induction a as [|x a IH]; [done |].
  change (String x a +:+ b) with (String x (a +:+ b)).
  cbn [subst_chars]. by rewrite IH, str_app_assoc.
Qed.

Lemma subst_chars_compose f g s :
  subst_chars g (subst_chars f s) = subst_chars (fun c => subst_chars g (f c)) s.
Proof.
  induction s as [|x s IH]; [done |].
  cbn [subst_chars]. by rewrite subst_chars_app, IH.
Qed.

Lemma subst_chars_ext f g s :
  (forall c, f c = g c) -> subst_chars f s = subst_chars g s.
Proof.
  intros Hfg. induction s as [|x s IH]; [done |].
  cbn [subst_chars]. by rewrite Hfg, IH.
Qed.

(** Replacing a one-character string replaces each occurrence of the
    character. *)
Lemma replace_char c new s :
  PyStr.replace (String c "") new s =
    subst_chars (fun x => if Ascii.eqb x c then new else String x "") s.
Proof.
  unfold PyStr.replace. induction s as [|x s IH]; [done |].
  cbn [PyStr.replace_go subst_chars String.prefix String.length].
  rewrite prefix_nil. cbn [Nat.sub]. rewrite IH.
  destruct (ascii_dec c x) as [-> | Hne].
  - by rewrite Ascii.eqb_refl.
  - destruct (Ascii.eqb_spec x c) as [-> | _]; done.
Qed.

(** ** Rendering *)

Lemma xml_escape_three_passes (c : ascii) :
  subst_chars (fun x => if Ascii.eqb x ">" then "&gt;" else String x "")
    (subst_chars (fun x => if Ascii.eqb x "<" then "&lt;" else String x "")
       (if Ascii.eqb c "&" then "&amp;" else String c "")) =
  xml_escape_char c.
Proof.
  unfold xml_escape_char.
  destruct (Ascii.eqb_spec c "&") as [-> | _]; [reflexivity |].
  cbn [subst_chars].
  destruct (Ascii.eqb_spec c "<") as [-> | _]; [reflexivity |].
  cbn [subst_chars String.append].
  by destruct (Ascii.eqb_spec c ">") as [-> | _].
Qed.

(** C8: the [about] text of the XML output is the record's text (its
    description when it has no [about]) with every [&] replaced by
    [&amp;], every [<] by [&lt;] and every [>] by [&gt;], and every
    other character, the two quote characters among them, as it is; the
    element holds that text. *)
Theorem xml_about_escapes_markup_only (p : record) :
  xml_about p =
    subst_chars xml_escape_char
      (get_str p "about" (get_str p "description" "No description available."))
  /\ xml_escape_char "&" = "&amp;"
  /\ xml_escape_char "<" = "&lt;"
  /\ xml_escape_char ">" = "&gt;"
  /\ xml_escape_char "'" = "'"
  /\ xml_escape_char "034" = dq
  /\ (forall c : ascii,
        c <> "&"%char -> c <> "<"%char -> c <> ">"%char ->
        xml_escape_char c = String c "")
  /\ (forall block : string,
        xml_block p = Some block ->
        PyStr.contains (xml_element "about" (xml_about p)) block = true).
Proof.
  split; [| repeat split].
  - unfold xml_about. rewrite !replace_char.
    rewrite (subst_chars_compose
               (fun x => if Ascii.eqb x "&" then "&amp;" else String x "")).
    rewrite subst_chars_compose.
    apply subst_chars_ext, xml_escape_three_passes.
  - intros c Hamp Hlt Hgt. unfold xml_escape_char.
    destruct (Ascii.eqb_spec c "&"); [done |].
    destruct (Ascii.eqb_spec c "<"); [done |].
    by destruct (Ascii.eqb_spec c ">").
  - intros block. unfold xml_block.
    destruct (item_str p "zip_filename"); [| discriminate].
    destruct (item_str p "zip_path"); [| discriminate].
    intros Hblock. apply (inj Some) in Hblock. rewrite <- Hblock.
    apply contains_join_all.
    unfold xml_block_pieces. cbn [In]. tauto.
Qed.

Lemma xml_about_escapes_markup_only_witness :
  xml_escape_char "a" = "a" /\
  exists block,
    xml_block bare_record = Some block /\
    PyStr.contains (xml_element "about" (xml_about bare_record)) block = true.
Proof.
  destruct (xml_about_escapes_markup_only bare_record)
    as (_ & _ & _ & _ & _ & _ & Hother & Hblock).
  split.
  - apply Hother; discriminate.
  - eexists. split; [vm_compute; reflexivity |].
    apply Hblock. vm_compute. reflexivity.
Defined.

Lemma tag_badges_loop_filter pieces acc :
  tag_badges_loop pieces acc =
    acc +:+ join_all (map tag_badge
                        (List.filter nonempty (map PyStr.strip pieces))).
Proof.
  revert acc. induction pieces as [|piece pieces IH]; intros acc.
  - cbn. by rewrite str_app_nil_r.
  - cbn [tag_badges_loop map List.filter]. rewrite IH.
    destruct (nonempty (PyStr.strip piece)); [| done].
    cbn [map join_all fold_right]. by rewrite str_app_assoc.
Qed.

(** C7: the badges of a card are those of [shown_tags]: the [tags] field
    split on commas, the first five pieces kept, each trimmed and the
    empty ones dropped.  So at most five badges are emitted, each for a
    trimmed non-empty piece of the field; a field of five pieces or fewer
    shows all its non-empty pieces; and a field listing eight tags yields
    the badges of its first five. *)
Theorem tag_badges_at_most_five (tags : string) :
  tag_badges tags = join_all (map tag_badge (shown_tags tags))
  /\ (length (shown_tags tags) <= 5)%nat
  /\ Forall (fun tag => tag <> "" /\
                        exists piece, In piece (PyStr.split "," tags) /\
                                      tag = PyStr.strip piece)
            (shown_tags tags)
  /\ ((length (PyStr.split "," tags) <= 5)%nat ->
      shown_tags tags =
        List.filter nonempty (map PyStr.strip (PyStr.split "," tags)))
  /\ shown_tags "gis, raster,vector ,,ai,maps,web,3d,lidar" =
       ["gis"; "raster"; "vector"; "ai"]
  /\ shown_tags "t1,t2,t3,t4,t5,t6,t7,t8" = ["t1"; "t2"; "t3"; "t4"; "t5"].
Proof.
  repeat split.
  - unfold tag_badges, shown_tags. destruct tags as [|c tags]; [reflexivity |].
    cbn [nonempty]. by rewrite tag_badges_loop_filter.
  - unfold shown_tags.
    etrans; [apply filter_length_le |].
    rewrite length_map, length_take. lia.
  - unfold shown_tags. apply List.Forall_forall. intros tag Htag.
    apply filter_In in Htag as [Hin Hne].
    apply in_map_iff in Hin as (piece & <- & Hpiece).
    split; [by destruct (PyStr.strip piece) |].
    exists piece. split; [| done].
    apply list_elem_of_In in Hpiece. apply list_elem_of_In.
    apply elem_of_take in Hpiece as (i & Hi & _).
    by eapply list_elem_of_lookup_2.
  - intros Hlen. unfold shown_tags. by rewrite take_ge.
Qed.

Lemma tag_badges_at_most_five_witness :
  shown_tags "gis, , raster" = ["gis"; "raster"].
Proof.
  destruct (tag_badges_at_most_five "gis, , raster") as (_ & _ & _ & Hall & _).
  rewrite Hall; [reflexivity |]. vm_compute. lia.
Defined.

Lemma get_str_insert (p : record) k v k' d :
  get_str (<[k := v]> p) k' d =
    if String.eqb k k' then str_value v else get_str p k' d.
Proof.
  unfold get_str. destruct (String.eqb_spec k k') as [-> | Hne].
  - by rewrite lookup_insert_eq.
  - by rewrite lookup_insert_ne.
Qed.

Lemma item_str_insert (p : record) k v k' :
  item_str (<[k := v]> p) k' =
    if String.eqb k k' then Some (str_value v) else item_str p k'.
Proof.
  unfold item_str. destruct (String.eqb_spec k k') as [-> | Hne].
  - by rewrite lookup_insert_eq.
  - by rewrite lookup_insert_ne.
Qed.

Lemma has_icon_insert_ne (p : record) k v :
  k <> "icon_path" -> has_icon (<[k := v]> p) = has_icon p.
Proof. intros Hne. unfold has_icon. by rewrite lookup_insert_ne. Qed.

Lemma get_str_default (p : record) k d : p !! k = None -> get_str p k d = d.
Proof. intros Hk. unfold get_str. by rewrite Hk. Qed.

(** A text that occurs in a piece occurs in the concatenation. *)
Lemma contains_in_piece sub piece pieces :
  In piece pieces -> PyStr.contains sub piece = true ->
  PyStr.contains sub (join_all pieces) = true.
Proof.
  intros Hin Hsub. induction pieces as [|q pieces IH]; [done |].
  cbn [join_all fold_right]. destruct Hin as [-> | Hin].
  - by apply contains_app_l.
  - apply contains_app_r. by apply IH.
Qed.

Lemma html_card_pieces_of p card :
  html_card p = Some card ->
  exists filename icon filesize modified,
    item_str p "filename" = Some filename /\
    item_str p "filesize" = Some filesize /\
    item_str p "modified" = Some modified /\
    card = join_all (html_card_pieces p filename icon filesize modified).
Proof.
  unfold html_card.
  destruct (item_str p "filename") as [filename|]; [| intros [=]].
  cbn [mbind option_bind].
  destruct (icon_html p (get_str p "name" filename)) as [icon|];
    [| intros [=]].
  destruct (item_str p "filesize") as [filesize|]; [| intros [=]].
  destruct (item_str p "modified") as [modified|]; [| intros [=]].
  cbn [mbind option_bind].
  intros Hcard. apply (inj Some) in Hcard. eauto 10.
Qed.

Lemma xml_block_pieces_of p block :
  xml_block p = Some block ->
  exists zip_filename zip_path,
    block = join_all (xml_block_pieces p zip_filename zip_path).
Proof.
  unfold xml_block.
  destruct (item_str p "zip_filename") as [zip_filename|]; [| intros [=]].
  destruct (item_str p "zip_path") as [zip_path|]; [| intros [=]].
  cbn [mbind option_bind].
  intros Hblock. apply (inj Some) in Hblock. eauto.
Qed.

(** Rewrites the reads of a record into which key [k] was inserted. *)
Ltac insert_lookups k :=
  rewrite ?get_str_insert, ?item_str_insert;
  repeat match goal with
         | |- context [String.eqb k ?k'] =>
             let r := eval vm_compute in (String.eqb k k') in
             change (String.eqb k k') with r
         end;
  cbv beta iota; cbn [str_value].

Lemma item_str_is_Some (p : record) k : is_Some (item_str p k) <-> is_Some (p !! k).
Proof. unfold item_str. by rewrite fmap_is_Some. Qed.

Lemma icon_html_is_Some (p : record) name : is_Some (icon_html p name).
Proof.
  unfold icon_html, has_icon, item_str.
  destruct (p !! "icon_path") as [[s | d |]|]; cbn [fmap option_fmap option_map];
    try destruct (nonempty s); by eexists.
Qed.

(** When a card is produced: the three items read with [p[...]] are
    there. *)
Lemma html_card_is_Some (p : record) :
  is_Some (html_card p) <->
  is_Some (p !! "filename") /\ is_Some (p !! "filesize") /\
  is_Some (p !! "modified").
Proof.
  rewrite <- !item_str_is_Some. unfold html_card.
  destruct (item_str p "filename") as [filename|]; cbn [mbind option_bind].
  2: { split; [by intros [? [=]] | by intros [[? [=]] _]]. }
  destruct (icon_html_is_Some p (get_str p "name" filename)) as [icon ->].
  cbn [mbind option_bind].
  destruct (item_str p "filesize") as [filesize|]; cbn [mbind option_bind].
  2: { split; [by intros [? [=]] | by intros (_ & [? [=]] & _)]. }
  destruct (item_str p "modified") as [modified|]; cbn [mbind option_bind].
  2: { split; [by intros [? [=]] | by intros (_ & _ & [? [=]])]. }
  split; [by eauto | by eexists].
Qed.

Lemma xml_block_is_Some (p : record) :
  is_Some (xml_block p) <->
  is_Some (p !! "zip_filename") /\ is_Some (p !! "zip_path").
Proof.
  rewrite <- !item_str_is_Some. unfold xml_block.
  destruct (item_str p "zip_filename") as [zip_filename|]; cbn [mbind option_bind].
  2: { split; [by intros [? [=]] | by intros [[? [=]] _]]. }
  destruct (item_str p "zip_path") as [zip_path|]; cbn [mbind option_bind].
  2: { split; [by intros [? [=]] | by intros [_ [? [=]]]]. }
  split; [by eauto | by eexists].
Qed.

(** C10: a record without a [version] is rendered by the HTML pass as
    the same record with version [Unknown] and by the XML pass as the
    same record with version [0.0.1]; a record without a
    [qgisminimumversion] as one with [3.0] in HTML and with [3.22] in
    XML.  The card is produced exactly when the record has the items
    [filename], [filesize] and [modified] that the HTML pass stores, the
    element exactly when it has [zip_filename] and [zip_path]; the card
    and the element then show those texts. *)
Theorem renderers_default_independently (p : record) :
  (is_Some (html_card p) <->
     is_Some (p !! "filename") /\ is_Some (p !! "filesize") /\
     is_Some (p !! "modified"))
  /\
  (is_Some (xml_block p) <->
     is_Some (p !! "zip_filename") /\ is_Some (p !! "zip_path"))
  /\
  (p !! "version" = None ->
     html_card p = html_card (<["version" := VStr "Unknown"]> p)
     /\ xml_block p = xml_block (<["version" := VStr "0.0.1"]> p)
     /\ (forall card, html_card p = Some card ->
           PyStr.contains ("badge version" +:+ dq +:+ ">vUnknown</span>") card
           = true)
     /\ (forall block, xml_block p = Some block ->
           PyStr.contains "<version>0.0.1</version>" block = true
           /\ PyStr.contains (" version=" +:+ dq +:+ "0.0.1" +:+ dq +:+ ">") block
              = true)
     /\ (is_Some (p !! "filename") -> is_Some (p !! "filesize") ->
         is_Some (p !! "modified") ->
         exists card,
           html_card p = Some card /\
           PyStr.contains ("badge version" +:+ dq +:+ ">vUnknown</span>") card
           = true)
     /\ (is_Some (p !! "zip_filename") -> is_Some (p !! "zip_path") ->
         exists block,
           xml_block p = Some block /\
           PyStr.contains "<version>0.0.1</version>" block = true /\
           PyStr.contains (" version=" +:+ dq +:+ "0.0.1" +:+ dq +:+ ">") block
           = true))
  /\
  (p !! "qgisminimumversion" = None ->
     html_card p = html_card (<["qgisminimumversion" := VStr "3.0"]> p)
     /\ xml_block p = xml_block (<["qgisminimumversion" := VStr "3.22"]> p)
     /\ (forall card, html_card p = Some card ->
           PyStr.contains " QGIS 3.0+</span>" card = true)
     /\ (forall block, xml_block p = Some block ->
           PyStr.contains
             "<qgis_minimum_version>3.22</qgis_minimum_version>" block = true)
     /\ (is_Some (p !! "filename") -> is_Some (p !! "filesize") ->
         is_Some (p !! "modified") ->
         exists card,
           html_card p = Some card /\
           PyStr.contains " QGIS 3.0+</span>" card = true)
     /\ (is_Some (p !! "zip_filename") -> is_Some (p !! "zip_path") ->
         exists block,
           xml_block p = Some block /\
           PyStr.contains
             "<qgis_minimum_version>3.22</qgis_minimum_version>" block = true)).
Proof.
  split; [apply html_card_is_Some |]. split; [apply xml_block_is_Some |].
  assert (forall (shown : string -> Prop),
            (forall card, html_card p = Some card -> shown card) ->
            is_Some (p !! "filename") -> is_Some (p !! "filesize") ->
            is_Some (p !! "modified") ->
            exists card, html_card p = Some card /\ shown card) as Hcard.
  { intros shown Hshown Hfilename Hfilesize Hmodified.
    destruct (proj2 (html_card_is_Some p)) as [card Hcard]; [done |].
    exists card. split; [done | by apply Hshown]. }
  assert (forall (shown : string -> Prop),
            (forall block, xml_block p = Some block -> shown block) ->
            is_Some (p !! "zip_filename") -> is_Some (p !! "zip_path") ->
            exists block, xml_block p = Some block /\ shown block) as Hblock.
  { intros shown Hshown Hfilename Hpath.
    destruct (proj2 (xml_block_is_Some p)) as [block Hblock]; [done |].
    exists block. split; [done | by apply Hshown]. }
  split; intros Hnone.
  - pose proof (get_str_default p "version" "Unknown" Hnone) as Hhtml.
    pose proof (get_str_default p "version" "0.0.1" Hnone) as Hxml.
    assert (forall card, html_card p = Some card ->
              PyStr.contains ("badge version" +:+ dq +:+ ">vUnknown</span>") card
              = true) as Hshown_html.
    { intros card (filename & icon & filesize & modified & _ & _ & _ & ->)%html_card_pieces_of.
      eapply contains_in_piece.
      * unfold html_card_pieces. rewrite Hhtml. cbn [In]. do 8 right. left. reflexivity.
      * by vm_compute. }
    assert (forall block, xml_block p = Some block ->
              PyStr.contains "<version>0.0.1</version>" block = true
              /\ PyStr.contains (" version=" +:+ dq +:+ "0.0.1" +:+ dq +:+ ">") block
                 = true) as Hshown_xml.
    { intros block (zip_filename & zip_path & ->)%xml_block_pieces_of. split.
      - eapply contains_in_piece.
        * unfold xml_block_pieces. rewrite Hxml. cbn [In]. do 3 right. left. reflexivity.
        * by vm_compute.
      - unfold xml_block_pieces. rewrite Hxml. cbn [join_all fold_right].
        apply contains_app_l. rewrite <- !str_app_assoc.
        apply contains_app_l. rewrite !str_app_assoc.
        apply contains_app_r. apply contains_app_r. apply contains_app_r.
        by vm_compute. }
    split; [| split; [| split; [exact Hshown_html | split; [exact Hshown_xml |]]]].
    + unfold html_card. insert_lookups "version".
      destruct (item_str p "filename") as [filename|]; [| done].
      cbn [mbind option_bind]. unfold icon_html, html_card_pieces.
      rewrite has_icon_insert_ne by done. insert_lookups "version".
      by rewrite Hhtml.
    + unfold xml_block, xml_block_pieces, xml_about.
      insert_lookups "version". by rewrite Hxml.
    + split.
      * exact (Hcard _ Hshown_html).
      * intros Hfilename Hpath.
        destruct (Hblock _ Hshown_xml Hfilename Hpath) as (block & ? & ? & ?).
        by exists block.
  - pose proof (get_str_default p "qgisminimumversion" "3.0" Hnone) as Hhtml.
    pose proof (get_str_default p "qgisminimumversion" "3.22" Hnone) as Hxml.
    assert (forall card, html_card p = Some card ->
              PyStr.contains " QGIS 3.0+</span>" card = true) as Hshown_html.
    { intros card (filename & icon & filesize & modified & _ & _ & _ & ->)%html_card_pieces_of.
      eapply contains_in_piece.
      * unfold html_card_pieces. rewrite Hhtml. cbn [In]. do 18 right. left. reflexivity.
      * by vm_compute. }
    assert (forall block, xml_block p = Some block ->
              PyStr.contains
                "<qgis_minimum_version>3.22</qgis_minimum_version>" block = true)
      as Hshown_xml.
    { intros block (zip_filename & zip_path & ->)%xml_block_pieces_of.
      eapply contains_in_piece.
      * unfold xml_block_pieces. rewrite Hxml. cbn [In]. do 4 right. left. reflexivity.
      * by vm_compute. }
    split; [| split; [| split; [exact Hshown_html | split; [exact Hshown_xml |]]]].
    + unfold html_card. insert_lookups "qgisminimumversion".
      destruct (item_str p "filename") as [filename|]; [| done].
      cbn [mbind option_bind]. unfold icon_html, html_card_pieces.
      rewrite has_icon_insert_ne by done. insert_lookups "qgisminimumversion".
      by rewrite Hhtml.
    + unfold xml_block, xml_block_pieces, xml_about.
      insert_lookups "qgisminimumversion". by rewrite Hxml.
    + split; [exact (Hcard _ Hshown_html) | exact (Hblock _ Hshown_xml)].
Qed.

(** For [bare_record], which has neither field, the card and the
    element are produced and show the four defaults. *)
Lemma renderers_default_independently_witness :
  (exists card,
     html_card bare_record = Some card /\
     PyStr.contains ("badge version" +:+ dq +:+ ">vUnknown</span>") card = true) /\
  (exists block,
     xml_block bare_record = Some block /\
     PyStr.contains "<version>0.0.1</version>" block = true /\
     PyStr.contains (" version=" +:+ dq +:+ "0.0.1" +:+ dq +:+ ">") block = true) /\
  (exists card,
     html_card bare_record = Some card /\
     PyStr.contains " QGIS 3.0+</span>" card = true) /\
  (exists block,
     xml_block bare_record = Some block /\
     PyStr.contains
       "<qgis_minimum_version>3.22</qgis_minimum_version>" block = true) /\
  html_card bare_record = html_card (<["version" := VStr "Unknown"]> bare_record) /\
  xml_block bare_record = xml_block (<["version" := VStr "0.0.1"]> bare_record) /\
  html_card bare_record =
    html_card (<["qgisminimumversion" := VStr "3.0"]> bare_record) /\
  xml_block bare_record =
    xml_block (<["qgisminimumversion" := VStr "3.22"]> bare_record).
Proof.
  destruct (renderers_default_independently bare_record)
    as (_ & _ & Hversion & Hqgis).
  destruct Hversion as (Hhtml & Hxml & _ & _ & Hcard & Hblock);
    [vm_compute; reflexivity |].
  destruct Hqgis as (Hhtml' & Hxml' & _ & _ & Hcard' & Hblock');
    [vm_compute; reflexivity |].
  split; [apply Hcard; by eexists |].
  split; [apply Hblock; by eexists |].
  split; [apply Hcard'; by eexists |].
  split; [apply Hblock'; by eexists |].
  exact (conj Hhtml (conj Hxml (conj Hhtml' Hxml'))).
Defined.

(** ** The catalog passes *)

(** ** Further properties of the catalog passes *)

(** What [parse_metadata] returns: nothing, or the options of the
    [general] section with the descriptor's timestamp. *)
Lemma parse_metadata_cases `{ConfigLib} (zip : option ZipFile) :
  parse_metadata zip = ∅ \/
  exists date options,
    parse_metadata zip = <["_metadata_date" := VDate date]> (VStr <$> options).
Proof.
  unfold parse_metadata. destruct zip as [zf|]; [| by left].
  destruct (List.find _ (namelist zf)) as [name|]; [| by left].
  unfold read_descriptor.
  destruct (getinfo zf name) as [info|]; [| by left].
  cbn [mbind option_bind].
  destruct (datetime_of (zi_date_time info)) as [date|]; [| by left].
  cbn [mbind option_bind].
  destruct (zi_data info) as [bytes| |]; [| by left | by left].
  cbn [mbind option_bind].
  destruct (decode_utf8 bytes) as [content|]; [| by left].
  cbn [mbind option_bind].
  destruct (read_string content) as [config|]; [| by left].
  cbn [mbind option_bind].
  destruct (config !! "general") as [[options|]|]; cbn [from_option id];
    [| by left | by left].
  right. by exists date, options.
Qed.



(** The record that the loop of [generate_index_html] appends for an
    archive with metadata. *)
Lemma html_step_usable `{ConfigLib} (f : plugin_file) plugins fs :
  usable f = true ->
  exists date options,
    parse_metadata (pf_zip f) =
      <["_metadata_date" := VDate date]> (VStr <$> options) /\
    html_step f (plugins, fs) =
      Some (plugins ++
              [<["modified" := VStr (strftime_ymd date)]>
                 (<["filesize" := VStr (get_file_size (pf_size f))]>
                    (<["filename" := VStr ("plugins/" +:+ pf_filename f)]>
                       (<["icon_path" :=
                            value_of_opt
                              (extract_plugin_icon (pf_zip f)
                                 (PyStr.replace ".zip" "" (pf_filename f))
                                 (get_opt_str (parse_metadata (pf_zip f)) "icon")
                                 fs).1]>
                          (parse_metadata (pf_zip f)))))],
            (extract_plugin_icon (pf_zip f)
               (PyStr.replace ".zip" "" (pf_filename f))
               (get_opt_str (parse_metadata (pf_zip f)) "icon") fs).2).
Proof.
  unfold usable. intros [Hzip Hne%bool_decide_eq_true]%andb_true_iff.
  destruct (parse_metadata_cases (pf_zip f)) as [Hempty | (date & options & Hmd)];
    [done |].
  exists date, options. split; [done |].
  unfold html_step. rewrite Hzip, bool_decide_eq_true_2 by done.
  destruct (extract_plugin_icon _ _ _ fs) as [icon_path fs'].
  rewrite !lookup_insert_ne by done. rewrite Hmd at 1.
  rewrite lookup_insert_eq. cbn [mbind option_bind fst snd]. reflexivity.
Qed.

Lemma html_step_unusable `{ConfigLib} (f : plugin_file) st :
  usable f = false -> html_step f st = Some st.
Proof.
  unfold usable, html_step. destruct st as [plugins fs].
  destruct (PyStr.endswith (pf_filename f) ".zip"); [| done].
  cbn [andb]. by intros ->.
Qed.

Lemma xml_step_usable `{ConfigLib} (f : plugin_file) plugins_data :
  usable f = true ->
  xml_step f plugins_data =
    plugins_data ++
      [<["zip_path" := VStr ("plugins/" +:+ pf_filename f)]>
         (<["zip_filename" := VStr (pf_filename f)]> (parse_metadata (pf_zip f)))].
Proof.
  unfold usable, xml_step. intros [-> ->]%andb_true_iff. reflexivity.
Qed.

Lemma xml_step_unusable `{ConfigLib} (f : plugin_file) plugins_data :
  usable f = false -> xml_step f plugins_data = plugins_data.
Proof.
  unfold usable, xml_step.
  destruct (PyStr.endswith (pf_filename f) ".zip"); [| done].
  cbn [andb]. by intros ->.
Qed.

Lemma html_step_describes `{ConfigLib} (f : plugin_file) plugins fs :
  usable f = true ->
  exists p fs',
    html_step f (plugins, fs) = Some (plugins ++ [p], fs') /\
    describes_html f p.
Proof.
  intros Husable.
  destruct (html_step_usable f plugins fs Husable)
    as (date & options & Hmd & ->).
  eexists _, _. split; [reflexivity |].
  unfold describes_html, html_derived_keys.
  split; [| split; [| split; [| split]]].
  - rewrite !lookup_insert_ne by done. by rewrite lookup_insert_eq.
  - rewrite lookup_insert_ne by done. by rewrite lookup_insert_eq.
  - exists date. split; [by rewrite Hmd, lookup_insert_eq |].
    by rewrite lookup_insert_eq.
  - eexists. rewrite !lookup_insert_ne by done. by rewrite lookup_insert_eq.
  - intros key Hkey.
    rewrite !lookup_insert_ne; [done | ..]; intros <-; apply Hkey; set_solver.
Qed.

Lemma html_loop_describes `{ConfigLib} (entries : list plugin_file) plugins fs :
  exists records fs',
    html_loop entries (plugins, fs) = Some (plugins ++ records, fs') /\
    Forall2 describes_html (List.filter usable entries) records.
Proof.
  revert plugins fs.
  induction entries as [|f entries IH]; intros plugins fs; cbn [html_loop List.filter].
  - exists [], fs. by rewrite app_nil_r.
  - destruct (usable f) eqn:Husable.
    + destruct (html_step_describes f plugins fs Husable)
        as (p & fs1 & -> & Hp).
      cbn [mbind option_bind].
      destruct (IH (plugins ++ [p]) fs1) as (records & fs' & -> & Hrecords).
      exists (p :: records), fs'. rewrite <- app_assoc. by split; [| constructor].
    + rewrite (html_step_unusable f _ Husable). cbn [mbind option_bind].
      apply IH.
Qed.

Lemma xml_loop_describes `{ConfigLib} (entries : list plugin_file) plugins_data :
  exists records,
    foldl (fun acc f => xml_step f acc) plugins_data entries =
      plugins_data ++ records /\
    Forall2 describes_xml (List.filter usable entries) records.
Proof.
  revert plugins_data.
  induction entries as [|f entries IH]; intros plugins_data;
    cbn [foldl List.filter].
  - exists []. by rewrite app_nil_r.
  - destruct (usable f) eqn:Husable.
    + rewrite (xml_step_usable f _ Husable).
      destruct (IH (plugins_data ++
                      [<["zip_path" := VStr ("plugins/" +:+ pf_filename f)]>
                         (<["zip_filename" := VStr (pf_filename f)]>
                            (parse_metadata (pf_zip f)))]))
        as (records & -> & Hrecords).
      eexists (_ :: records). rewrite <- app_assoc. split; [reflexivity |].
      constructor; [| done].
      unfold describes_xml. split; [| split].
      * by rewrite lookup_insert_ne, lookup_insert_eq.
      * by rewrite lookup_insert_eq.
      * intros key H1 H2. by rewrite !lookup_insert_ne.
    + rewrite (xml_step_unusable f _ Husable). apply IH.
Qed.










(** The list each pass collects, before and after its sort. *)
Lemma html_plugins_collected `{ConfigLib} (dir : option (list plugin_file)) fs :
  exists collected fs',
    html_plugins dir fs = Some (sort_by_key name_key collected, fs') /\
    Forall2 describes_html
      (List.filter usable (sorted_listing (default [] dir))) collected.
Proof.
  unfold html_plugins. destruct dir as [entries|]; cbn [from_option id].
  - destruct (html_loop_describes (sorted_listing entries) [] fs)
      as (records & fs' & -> & Hrecords).
    cbn [mbind option_bind app]. eauto.
  - cbn [mbind option_bind]. exists [], fs. split; [done | constructor].
Qed.

Lemma xml_plugins_collected `{ConfigLib} (dir : option (list plugin_file)) :
  exists collected,
    xml_plugins dir = sort_by_key name_key collected /\
    Forall2 describes_xml
      (List.filter usable (sorted_listing (default [] dir))) collected.
Proof.
  unfold xml_plugins. destruct dir as [entries|]; cbn [from_option id].
  - destruct (xml_loop_describes (sorted_listing entries) [])
      as (records & -> & Hrecords).
    cbn [app]. eauto.
  - exists []. split; [done | constructor].
Qed.




(** A sorted list is determined by the sub-lists of its elements of
    each key: there is one stable sort. *)
Lemma stable_sorted_unique {A} (key : A -> string) (l1 l2 : list A) :
  StronglySorted (key_le key) l1 -> StronglySorted (key_le key) l2 ->
  (forall k, List.filter (fun x => String.eqb (key x) k) l1 =
             List.filter (fun x => String.eqb (key x) k) l2) ->
  l1 = l2.
Proof.
  assert (forall (x : A) l, In x (List.filter (fun y => String.eqb (key y) (key x)) (x :: l)))
    as Hhead.
  { intros x l. cbn [List.filter]. rewrite String.eqb_refl. by left. }
  revert l2. induction l1 as [|x l1 IH]; intros l2 Hs1 Hs2 Hsame.
  - destruct l2 as [|y l2]; [done |].
    pose proof (Hhead y l2) as Hin. by rewrite <- Hsame in Hin.
  - destruct l2 as [|y l2].
    { pose proof (Hhead x l1) as Hin. by rewrite Hsame in Hin. }
    apply StronglySorted_inv in Hs1 as [Hs1 Hx].
    apply StronglySorted_inv in Hs2 as [Hs2 Hy].
    assert (key x = key y) as Hkey.
    { apply (anti_symm String.le).
      - pose proof (Hhead y l2) as Hin. rewrite <- Hsame in Hin.
        apply filter_In in Hin as [[<- | Hin] _]; [done |].
        by apply (proj1 (List.Forall_forall _ _) Hx).
      - pose proof (Hhead x l1) as Hin. rewrite Hsame in Hin.
        apply filter_In in Hin as [[<- | Hin] _]; [done |].
        by apply (proj1 (List.Forall_forall _ _) Hy). }
    assert (x = y) as <-.
    { specialize (Hsame (key x)). cbn [List.filter] in Hsame.
      rewrite <- Hkey, String.eqb_refl in Hsame. by injection Hsame. }
    f_equal. apply IH; [done | done |]. intros k.
    specialize (Hsame k). cbn [List.filter] in Hsame.
    destruct (String.eqb (key x) k); [by injection Hsame | done].
Qed.

(** C2 (amended): each pass collects one record per archive with a
    descriptor, in the order of the file names, and then sorts the list
    stably by the lower-cased [name] field: the sorted list has the
    collected records, each as often, in ascending order of that key,
    the records of one key in the order they were collected, and it is
    the only list that does.  A record named [Alpha] precedes one named
    [zeta], and one named [alpha] precedes one named [Zeta]; a record
    without a [name] is sorted under the empty key in both passes, ahead
    of every named record, whatever name the renderer later displays for
    it. *)
Theorem catalog_sorted_by_lowercase_name `{ConfigLib}
    (dir : option (list plugin_file)) (fs : files) :
  let archives := List.filter usable (sorted_listing (default [] dir)) in
  let same_key (k : string) (p : record) := String.eqb (name_key p) k in
  (exists collected fs',
      html_plugins dir fs = Some (sort_by_key name_key collected, fs') /\
      Forall2 describes_html archives collected)
  /\ (exists collected,
      xml_plugins dir = sort_by_key name_key collected /\
      Forall2 describes_xml archives collected)
  /\ (forall collected : list record,
        Permutation (sort_by_key name_key collected) collected /\
        StronglySorted name_le (sort_by_key name_key collected) /\
        (forall k, List.filter (same_key k) (sort_by_key name_key collected) =
                   List.filter (same_key k) collected) /\
        (forall sorted : list record,
            StronglySorted name_le sorted ->
            (forall k, List.filter (same_key k) sorted =
                       List.filter (same_key k) collected) ->
            sorted = sort_by_key name_key collected))
  /\ (forall p : record, p !! "name" = None ->
        name_key p = "" /\ forall q : record, name_le p q)
  /\ (forall (p : record) (s : string),
        p !! "name" = Some (VStr s) -> name_key p = PyStr.lower s)
  /\ (forall p q : record,
        p !! "name" = Some (VStr "zeta") -> q !! "name" = Some (VStr "Alpha") ->
        sort_by_key name_key [p; q] = [q; p] /\
        sort_by_key name_key [q; p] = [q; p])
  /\ (forall p q : record,
        p !! "name" = Some (VStr "Zeta") -> q !! "name" = Some (VStr "alpha") ->
        sort_by_key name_key [p; q] = [q; p] /\
        sort_by_key name_key [q; p] = [q; p]).
Proof.
  intros archives same_key.
  split; [apply html_plugins_collected |].
  split; [apply xml_plugins_collected |].
  split; [| split; [| split; [| split]]].
  - intros collected.
    split; [apply sort_by_key_perm |].
    split; [apply sort_by_key_sorted |].
    split; [intros k; apply sort_by_key_stable |].
    intros sorted Hsorted Hsame. apply (stable_sorted_unique name_key).
    + exact Hsorted.
    + apply sort_by_key_sorted.
    + intros k. rewrite (sort_by_key_stable name_key). apply Hsame.
  - intros p Hname.
    assert (name_key p = "") as Hkey.
    { unfold name_key, get_str. by rewrite Hname. }
    split; [done |]. intros q. unfold name_le, key_le. rewrite Hkey.
    by destruct (name_key q).
  - intros p name Hname. unfold name_key, get_str. by rewrite Hname.
  - intros p q Hp Hq. cbn [sort_by_key insert_by_key].
    unfold name_key, get_str. by rewrite Hp, Hq.
  - intros p q Hp Hq. cbn [sort_by_key insert_by_key].
    unfold name_key, get_str. by rewrite Hp, Hq.
Qed.

(** In the directory of the examples, [b.zip] has no name, [c.zip] no
    descriptor and [a.zip] the name [Alpha]: both passes list the record
    of [b.zip] and then that of [a.zip]. *)
Lemma catalog_sorted_by_lowercase_name_witness :
  (exists nameless alpha fs',
     @html_plugins line_config_lib (Some example_dir) ∅
       = Some ([nameless; alpha], fs') /\
     @describes_html line_config_lib nameless_file nameless /\
     @describes_html line_config_lib alpha_file alpha) /\
  (exists nameless alpha,
     @xml_plugins line_config_lib (Some example_dir) = [nameless; alpha] /\
     @describes_xml line_config_lib nameless_file nameless /\
     @describes_xml line_config_lib alpha_file alpha) /\
  name_key nameless_record = "" /\
  sort_by_key name_key [zeta_record; alpha_record] = [alpha_record; zeta_record].
Proof.
  destruct (@catalog_sorted_by_lowercase_name line_config_lib
              (Some example_dir) ∅)
    as (Hhtml & Hxml & _ & Hnameless & Hnamed & Hzeta & _).
  assert (List.filter (@usable line_config_lib)
            (sorted_listing (default [] (Some example_dir)))
          = [alpha_file; nameless_file]) as Harchives
    by (vm_compute; reflexivity).
  rewrite Harchives in Hhtml, Hxml.
  assert (forall p : record,
            p !! "name" = Some (VStr "Alpha") ->
            forall q : record, q !! "name" = None ->
            sort_by_key name_key [p; q] = [q; p]) as Horder.
  { intros p Hp q Hq. cbn [sort_by_key insert_by_key].
    destruct (Hnameless q Hq) as [-> _]. rewrite (Hnamed p "Alpha" Hp).
    reflexivity. }
  assert (forall f (p : record),
            f = alpha_file \/ f = nameless_file ->
            (@describes_html line_config_lib f p \/
             @describes_xml line_config_lib f p) ->
            p !! "name" = @parse_metadata line_config_lib (pf_zip f) !! "name")
    as Hname.
  { intros f p _ [(_ & _ & _ & _ & Hkeys) | (_ & _ & Hkeys)].
    - apply Hkeys. compute_done.
    - by apply Hkeys. }
  split; [| split; [| split]].
  - destruct Hhtml as (collected & fs' & Hpass & Hcollected).
    apply Forall2_cons_inv_l in Hcollected as (alpha & rest & Halpha & Hrest & ->).
    apply Forall2_cons_inv_l in Hrest as (nameless & rest' & Hlast & Hnil & ->).
    apply Forall2_nil_inv_l in Hnil as ->.
    exists nameless, alpha, fs'. split; [| done].
    rewrite Hpass. f_equal. f_equal. apply Horder.
    + rewrite (Hname alpha_file) by auto. vm_compute. reflexivity.
    + rewrite (Hname nameless_file) by auto. vm_compute. reflexivity.
  - destruct Hxml as (collected & Hpass & Hcollected).
    apply Forall2_cons_inv_l in Hcollected as (alpha & rest & Halpha & Hrest & ->).
    apply Forall2_cons_inv_l in Hrest as (nameless & rest' & Hlast & Hnil & ->).
    apply Forall2_nil_inv_l in Hnil as ->.
    exists nameless, alpha. split; [| done].
    rewrite Hpass. apply Horder.
    + rewrite (Hname alpha_file) by auto. vm_compute. reflexivity.
    + rewrite (Hname nameless_file) by auto. vm_compute. reflexivity.
  - apply Hnameless. vm_compute. reflexivity.
  - apply Hzeta; vm_compute; reflexivity.
Defined.

(** Against C2 as worded: with the archives [a.zip] (named [Alpha]) and
    [b.zip] (no name), both passes put the record of [b.zip] first, its
    key being empty; sorted by display name, [Alpha] would come before
    [plugins/b.zip] and before [Unknown]. *)
Lemma sort_key_is_not_display_name :
  (fun r => map html_display_name r.1) <$>
    @html_plugins line_config_lib (Some [alpha_file; nameless_file]) ∅
    = Some ["plugins/b.zip"; "Alpha"] /\
  (fun r => map name_key r.1) <$>
    @html_plugins line_config_lib (Some [alpha_file; nameless_file]) ∅
    = Some [""; "alpha"] /\
  (fun r => map html_display_name
              (sort_by_key (fun p => PyStr.lower (html_display_name p)) r.1)) <$>
    @html_plugins line_config_lib (Some [alpha_file; nameless_file]) ∅
    = Some ["Alpha"; "plugins/b.zip"] /\
  map xml_display_name
      (@xml_plugins line_config_lib (Some [alpha_file; nameless_file]))
    = ["Unknown"; "Alpha"] /\
  map xml_display_name
      (sort_by_key (fun p => PyStr.lower (xml_display_name p))
         (@xml_plugins line_config_lib (Some [alpha_file; nameless_file])))
    = ["Alpha"; "Unknown"].
Proof. split; [| split; [| split; [| split]]]; vm_compute; reflexivity. Qed.

Lemma find_descriptor_none zf :
  Forall (fun name => PyStr.endswith name "metadata.txt" = false) (namelist zf) ->
  descriptor_name zf = None.
Proof. apply find_none_Forall. Qed.

Lemma html_loop_app `{ConfigLib} before after st :
  html_loop (before ++ after) st = st' ← html_loop before st; html_loop after st'.
Proof.
  revert st. induction before as [|f before IH]; intros st; cbn [app html_loop].
  - done.
  - destruct (html_step f st) as [st'|]; cbn [mbind option_bind]; [apply IH | done].
Qed.

(** C5: an archive that cannot be opened, has no entry ending with the
    descriptor's name, or whose descriptor cannot be read, decoded or
    parsed, or has no [general] section, makes [parse_metadata] return
    the empty mapping, and the loops of both passes leave their record
    list (and the icon files) as they were: enumerating the directory
    with or without that archive gives the same records. *)
Theorem no_metadata_no_record `{ConfigLib} (f : plugin_file) :
  no_metadata (pf_zip f) ->
  parse_metadata (pf_zip f) = ∅
  /\ (forall st, html_step f st = Some st)
  /\ (forall plugins_data, xml_step f plugins_data = plugins_data)
  /\ (forall before after st,
        html_loop (before ++ f :: after) st = html_loop (before ++ after) st)
  /\ (forall before after plugins_data,
        foldl (fun acc g => xml_step g acc) plugins_data (before ++ f :: after) =
        foldl (fun acc g => xml_step g acc) plugins_data (before ++ after)).
Proof.
  intros Hfail.
  assert (parse_metadata (pf_zip f) = ∅) as Hempty.
  { unfold parse_metadata.
    destruct Hfail as
      [ | zf Hnone | zf name info Hname Hinfo Hdate
        | zf name info Hname Hinfo Hdata
        | zf name info bytes Hname Hinfo Hdata Hdecode
        | zf name info bytes content Hname Hinfo Hdata Hdecode Hparse
        | zf name info bytes content config Hname Hinfo Hdata Hdecode Hparse Hgeneral ];
      [done | by rewrite (find_none_Forall _ _ Hnone) | ..];
      unfold descriptor_name in Hname; rewrite Hname;
      unfold read_descriptor; rewrite Hinfo; cbn [mbind option_bind].
    - by rewrite Hdate.
    - destruct (datetime_of (zi_date_time info)); [| done].
      cbn [mbind option_bind]. by destruct Hdata as [-> | ->].
    - destruct (datetime_of (zi_date_time info)); [| done].
      cbn [mbind option_bind]. rewrite Hdata. cbn [mbind option_bind].
      by rewrite Hdecode.
    - destruct (datetime_of (zi_date_time info)); [| done].
      cbn [mbind option_bind]. rewrite Hdata. cbn [mbind option_bind].
      rewrite Hdecode. cbn [mbind option_bind]. by rewrite Hparse.
    - destruct (datetime_of (zi_date_time info)); [| done].
      cbn [mbind option_bind]. rewrite Hdata. cbn [mbind option_bind].
      rewrite Hdecode. cbn [mbind option_bind]. rewrite Hparse.
      cbn [mbind option_bind]. by destruct Hgeneral as [-> | ->]. }
  assert (forall st, html_step f st = Some st) as Hhtml.
  { intros [plugins fs]. unfold html_step. rewrite Hempty.
    destruct (PyStr.endswith (pf_filename f) ".zip"); [| done].
    by rewrite bool_decide_eq_false_2 by (intros Hne; by apply Hne). }
  assert (forall plugins_data, xml_step f plugins_data = plugins_data) as Hxml.
  { intros plugins_data. unfold xml_step. rewrite Hempty.
    destruct (PyStr.endswith (pf_filename f) ".zip"); [| done].
    by rewrite bool_decide_eq_false_2 by (intros Hne; by apply Hne). }
  repeat split; try done.
  - intros before after st. rewrite !html_loop_app. cbn [html_loop].
    destruct (html_loop before st) as [st'|]; cbn [mbind option_bind]; [| done].
    by rewrite Hhtml.
  - intros before after plugins_data. rewrite !foldl_app. cbn [foldl].
    by rewrite Hxml.
Qed.

Lemma no_metadata_no_record_witness :
  @parse_metadata line_config_lib (pf_zip bare_file) = ∅ /\
  @parse_metadata line_config_lib (pf_zip sectionless_file) = ∅ /\
  @html_loop line_config_lib [alpha_file; sectionless_file; nameless_file] ([], ∅) =
  @html_loop line_config_lib [alpha_file; nameless_file] ([], ∅).
Proof.
  assert (@no_metadata line_config_lib (pf_zip sectionless_file)) as Hfail.
  { eapply (@no_general_section line_config_lib _ "d/metadata.txt");
      [reflexivity | reflexivity | reflexivity | reflexivity | reflexivity |].
    left. vm_compute. reflexivity. }
  split; [| split].
  - apply (@no_metadata_no_record line_config_lib bare_file).
    apply (@no_descriptor line_config_lib). vm_compute. repeat constructor.
  - by apply (@no_metadata_no_record line_config_lib sectionless_file).
  - destruct (@no_metadata_no_record line_config_lib sectionless_file Hfail)
      as (_ & _ & _ & Hloop & _).
    apply (Hloop [alpha_file] [nameless_file]).
Defined.

(** C9: a non-empty mapping returned by [parse_metadata] holds under
    [_metadata_date] the timestamp stored with the descriptor entry, and
    the record the HTML pass builds from it has that timestamp, as
    [YYYY-MM-DD], for its [modified] field, whatever the modification
    time of the archive file is; the card shows it. *)
Theorem metadata_date_always_present `{ConfigLib} (f : plugin_file) :
  parse_metadata (pf_zip f) <> ∅ ->
  exists zf name info date,
    pf_zip f = Some zf /\ descriptor_name zf = Some name /\
    getinfo zf name = Some info /\
    datetime_of (zi_date_time info) = Some date /\
    parse_metadata (pf_zip f) !! "_metadata_date" = Some (VDate date) /\
    (PyStr.endswith (pf_filename f) ".zip" = true ->
     forall plugins fs, exists p fs',
       html_step f (plugins, fs) = Some (plugins ++ [p], fs') /\
       p !! "modified" = Some (VStr (strftime_ymd date)) /\
       forall card, html_card p = Some card ->
                    PyStr.contains (strftime_ymd date) card = true).
Proof.
  intros Hne.
  destruct (pf_zip f) as [zf|] eqn:Hzip; [| done].
  unfold parse_metadata in Hne |- *. fold (descriptor_name zf) in Hne |- *.
  destruct (descriptor_name zf) as [name|] eqn:Hname; [| done].
  assert (exists info date options,
            getinfo zf name = Some info /\
            datetime_of (zi_date_time info) = Some date /\
            read_descriptor zf name =
              Some (<["_metadata_date" := VDate date]> (VStr <$> options)))
    as (info & date & options & Hinfo & Hdate & Hread).
  { unfold read_descriptor in Hne |- *.
    destruct (getinfo zf name) as [info|] eqn:Hinfo; [| done].
    cbn [mbind option_bind] in *.
    destruct (datetime_of (zi_date_time info)) as [date|] eqn:Hdate; [| done].
    cbn [mbind option_bind] in *.
    destruct (zi_data info) as [bytes| |]; [| done | done].
    cbn [mbind option_bind] in *.
    destruct (decode_utf8 bytes) as [content|]; [| done].
    cbn [mbind option_bind] in *.
    destruct (read_string content) as [config|]; [| done].
    cbn [mbind option_bind] in *.
    destruct (config !! "general") as [[options|]|];
      cbn [from_option id] in Hne; [| done | done].
    exists info, date, options. rewrite Hdate. cbn [mbind option_bind].
    repeat split; reflexivity. }
  exists zf, name, info, date.
  rewrite Hread. cbn [from_option id].
  split; [done |]. split; [done |]. split; [done |]. split; [done |].
  split; [by rewrite lookup_insert_eq |].
  intros Hzipname plugins fs.
  unfold html_step. rewrite Hzipname, Hzip.
  unfold parse_metadata. fold (descriptor_name zf). rewrite Hname, Hread.
  cbn [from_option id].
  rewrite bool_decide_eq_true_2 by (by apply insert_non_empty).
  destruct (extract_plugin_icon _ _ _ fs) as [icon_path fs'].
  rewrite !lookup_insert_ne by done. rewrite lookup_insert_eq.
  cbn [mbind option_bind].
  eexists _, fs'. split; [reflexivity |].
  split; [by rewrite lookup_insert_eq |].
  intros card (filename & icon & filesize & modified & _ & _ & Hmodified & ->)%html_card_pieces_of.
  unfold item_str in Hmodified. rewrite lookup_insert_eq in Hmodified.
  injection Hmodified as <-.
  eapply contains_in_piece.
  - unfold html_card_pieces. cbn [In]. do 19 right. left. reflexivity.
  - cbn [str_value]. apply contains_app_r, contains_app_r, contains_app_r.
    apply contains_refl_app.
Qed.

Lemma metadata_date_always_present_witness :
  exists p fs,
    @html_step line_config_lib alpha_file ([], ∅) = Some ([p], fs) /\
    p !! "modified" = Some (VStr "2024-03-05").
Proof.
  destruct (@metadata_date_always_present line_config_lib alpha_file)
    as (zf & name & info & date & Hzip & Hname & Hinfo & Hdate & _ & Hstep).
  - compute_done.
  - injection Hzip as <-.
    vm_compute in Hname. injection Hname as <-.
    vm_compute in Hinfo. injection Hinfo as <-.
    vm_compute in Hdate. injection Hdate as <-.
    destruct (Hstep eq_refl [] ∅) as (p & fs & Hp & Hmodified & _).
    exists p, fs. split; [exact Hp | exact Hmodified].
Defined.

(** ** Installation *)





Lemma names_entry_true name :
  names_entry name = true <-> name <> "." /\ name <> "..".
Proof.
  unfold names_entry.
  destruct (String.eqb_spec name ".") as [Hdot | Hdot];
    destruct (String.eqb_spec name "..") as [Hdots | Hdots];
    cbn [negb andb]; split; try done; by intros [? ?].
Qed.









(** C4: on [bundle.zip], whose extraction yields two top-level entries,
    the directory [plug] and the file [README.txt], [install_plugin]
    does not install them together under [bundle], as the specification
    and the comment of the [else] branch have it for files at the root: the
    directory alone is installed, under its own name, and the file is
    removed with the temporary directory. *)
Theorem several_entries_not_kept_together :
  @extractall tree_zip_lib bundle_zip None =
    Some (Some [("plug", Dir [("__init__.py", File [x01])]);
                ("README.txt", File [x02])]) /\
  @install_plugin tree_zip_lib "bundle.zip" (Some bundle_zip) ∅ =
    (Installed, {[ "plug" := Dir [("__init__.py", File [x01])] ]}) /\
  (@install_plugin tree_zip_lib "bundle.zip" (Some bundle_zip) ∅).2
    !! "plug" = Some (Dir [("__init__.py", File [x01])]) /\
  (@install_plugin tree_zip_lib "bundle.zip" (Some bundle_zip) ∅).2 !! "bundle"
    = None /\
  (@install_plugin tree_zip_lib "bundle.zip" (Some bundle_zip) ∅).2 <>
    {[ "bundle" := Dir [("plug", Dir [("__init__.py", File [x01])]);
                        ("README.txt", File [x02])] ]}.
Proof.
  split; [| split; [| split; [| split]]]; try (vm_compute; reflexivity).
  intros Heq. apply (f_equal (fun m : folder => m !! "bundle")) in Heq.
  vm_compute in Heq. discriminate.
Qed.












(** ** Further properties of the icon search *)

Lemma try_metadata_candidates_Some zf plugin_name candidates fs result :
  try_metadata_candidates zf plugin_name candidates fs = Some result ->
  exists c, c ∈ namelist zf /\
            result = copy_icon zf c (plugin_name +:+ declared_extension c) fs.
Proof.
  induction candidates as [|c candidates IH]; cbn [try_metadata_candidates];
    [discriminate |].
  case_bool_decide as Hc; [| exact IH].
  intros [= <-]. by exists c.
Qed.


















(** ** Suffixes *)












(** ** Further properties of the rendering *)






(** ** Further properties of the size formatting *)






(** ** Further properties of the installer *)



(** The stems that are not names of entries come from two file names
    only, among those ending in [.zip]. *)
Lemma stem_dot : stem "..zip" = "." /\ stem "...zip" = "..".
Proof. split; reflexivity. Qed.


















Lemma install_all_counts `{ZipLib} (plugin_zips : list plugin_file)
    (installed failed : nat) (target : folder) :
  ((install_all plugin_zips installed failed target).1.1 +
   (install_all plugin_zips installed failed target).1.2 =
   installed + failed + length plugin_zips)%nat /\
  (failed <= (install_all plugin_zips installed failed target).1.2)%nat.
Proof.
  revert installed failed target.
  induction plugin_zips as [|zip_file rest IH]; intros installed failed target;
    cbn [install_all length fst snd]; [lia |].
  destruct (install_plugin _ _ target) as [[|] target'].
  - destruct (IH (S installed) failed target'). lia.
  - destruct (IH installed (S failed) target'). lia.
Qed.

(** The failures counted by the loop are the installations that raise. *)
Lemma install_all_no_failure `{ZipLib} (plugin_zips : list plugin_file)
    (installed failed : nat) (target : folder) :
  (install_all plugin_zips installed failed target).1.2 = failed <->
  (install_all plugin_zips installed failed target).1.1 =
    (installed + length plugin_zips)%nat.
Proof.
  destruct (install_all_counts plugin_zips installed failed target). lia.
Qed.



